(** * superset/views/base.py: response construction and error dispatch

    A shallow embedding of the response builders, the exception-catching
    decorators, the global error handlers, the bootstrap payload assembler
    and the after-request header hook of [superset/views/base.py].

    Conventions.
    - Python [int] is [Z]; [str] is [string] (one character per code point
      below 256); [float] is [spec_float]; [dict] is an association list in
      insertion order with unique keys.
    - A call that may raise returns [result A]: [Ok a] or [Raise e].
    - Calls to [logger] have no influence on the returned response and are
      left out.
    - Collaborators whose code lives outside this file of the repository
      ([utils.error_msg_from_exception], [utils.json_iso_dttm_ser],
      [traceback.format_exc], [send_file], ...) are [Variable]s of the
      section that uses them. *)

From Stdlib Require Import ZArith List String Ascii Bool Lia.
From Stdlib Require Import SpecFloat DecimalString.
Import ListNotations.

Local Open Scope string_scope.
Local Open Scope Z_scope.

(* ================================================================== *)
(** ** Python values *)

Set Warnings "-register-all".

Inductive value : Type :=
| VNone
| VBool (b : bool)
| VInt (n : Z)
| VFloat (f : spec_float)
| VStr (s : string)
| VList (xs : list value)
| VDict (items : list (string * value))
| VSet (xs : list value)
| VObj (handle : nat).

Definition dict := list (string * value).

(** [d.get(k)] without default is [None] on a missing key; we keep the
    option so that [k in d] and [d[k]] can be told apart. *)
Fixpoint dict_get {A : Type} (k : string) (d : list (string * A)) : option A :=
  match d with
  | [] => None
  | (k', v) :: d' => if String.eqb k k' then Some v else dict_get k d'
  end.

Definition dict_mem {A : Type} (k : string) (d : list (string * A)) : bool :=
  match dict_get k d with Some _ => true | None => false end.

(** [d[k] = v]: an existing key keeps its position, a new key goes last. *)
Fixpoint dict_set {A : Type} (k : string) (v : A) (d : list (string * A))
  : list (string * A) :=
  match d with
  | [] => [(k, v)]
  | (k', v') :: d' =>
      if String.eqb k k' then (k, v) :: d' else (k', v') :: dict_set k v d'
  end.

(** [d.update(e)], and with it [{**d, **e}] on a fresh copy of [d]. *)
Definition dict_update {A : Type} (d e : list (string * A)) : list (string * A) :=
  fold_left (fun acc kv => dict_set (fst kv) (snd kv) acc) e d.

(** Truthiness of an optional mapping and of an optional string. *)
Definition truthy_dict (p : option dict) : bool :=
  match p with
  | Some (_ :: _) => true
  | _ => false
  end.

Definition truthy_str (s : option string) : bool :=
  match s with
  | Some (String _ _) => true
  | _ => false
  end.

(** [f"{msg}"] for [msg : str | None]. *)
Definition format_str (msg : option string) : string :=
  match msg with
  | Some s => s
  | None => "None"
  end.

Definition string_of_Z (n : Z) : string := NilZero.string_of_int (Z.to_int n).

(* ================================================================== *)
(** ** Structured errors ([superset.errors]) *)

Inductive ErrorLevel := INFO | WARNING | ERROR.

Inductive SupersetErrorType :=
| GENERIC_COMMAND_ERROR
| GENERIC_BACKEND_ERROR
| OTHER_ERROR_TYPE (name : string).

(** Modelled from the spec: the dataclass [SupersetError] is declared in
    [superset/errors.py]; the spec gives its fields as
    [{message, error_type, level, extra}] and calls the record immutable
    once constructed. [extra] defaults to [None]. The members of the two
    enumerations serialize as their string values. *)
Record SupersetError := mkSupersetError {
  message : string;
  error_type : SupersetErrorType;
  level : ErrorLevel;
  extra : option dict
}.

Definition ErrorLevel_value (l : ErrorLevel) : string :=
  match l with
  | INFO => "info"
  | WARNING => "warning"
  | ERROR => "error"
  end.

Definition SupersetErrorType_value (t : SupersetErrorType) : string :=
  match t with
  | GENERIC_COMMAND_ERROR => "GENERIC_COMMAND_ERROR"
  | GENERIC_BACKEND_ERROR => "GENERIC_BACKEND_ERROR"
  | OTHER_ERROR_TYPE name => name
  end.

(** [dataclasses.asdict(error)]: the record, field by field. *)
Definition asdict (e : SupersetError) : value :=
  VDict [ ("message", VStr (message e));
          ("error_type", VStr (SupersetErrorType_value (error_type e)));
          ("level", VStr (ErrorLevel_value (level e)));
          ("extra", match extra e with Some d => VDict d | None => VNone end) ].

(* ================================================================== *)
(** ** Exceptions

    One constructor per exception class that some [except] clause or
    [errorhandler] of the file names, the classes the serializer raises, and
    a last one for every other [Exception]. The subclass relation is the one
    of the libraries: [SupersetSecurityException] is a
    [SupersetErrorException], the [Superset...] and [Command...] classes are
    [SupersetException]s, [CommandInvalidError] is a [CommandException],
    [CSRFError] is an [HTTPException]. *)

Inductive exn : Type :=
| NoAuthorizationError (msg : string)
| SupersetSecurityException (error : SupersetError) (status : Z) (payload : option dict)
| SupersetErrorsException (errors : list SupersetError) (status : Z)
| SupersetErrorException (error : SupersetError) (status : Z)
| SupersetException (msg : string) (status : Z)
| CommandException (msg : string) (status : Z)
| CommandInvalidError (msg : string) (status : Z) (normalized_messages : dict)
| HTTPException (code : option Z) (description : string)
| CSRFError (code : option Z) (description : string)
| IntegrityError (msg : string)
| DatabaseError (msg : string)
| DataError (msg : string)
| KeyError (key : string)
| TypeError (msg : string)
| ValueError (msg : string)
| RecursionError
| AttributeError (name : string)
| OtherException (msg : string).

(** [ex.code] of an [HTTPException]. *)
Definition exn_code (ex : exn) : option Z :=
  match ex with
  | HTTPException code _ | CSRFError code _ => code
  | _ => None
  end.

(** [(ex.message, ex.status)] of a [CommandException], with
    [ex.normalized_messages()] when it is a [CommandInvalidError]. *)
Definition command_fields (ex : exn) : option (string * Z * option dict) :=
  match ex with
  | CommandException msg status => Some (msg, status, None)
  | CommandInvalidError msg status normalized => Some (msg, status, Some normalized)
  | _ => None
  end.

(** [code in {404, 500}], [f"{code}"] and [code or 500]. *)
Definition code_in_404_500 (code : option Z) : bool :=
  match code with
  | Some c => (c =? 404) || (c =? 500)
  | None => false
  end.

Definition format_code (code : option Z) : string :=
  match code with
  | Some c => string_of_Z c
  | None => "None"
  end.

Definition code_or_500 (code : option Z) : Z :=
  match code with
  | Some c => if c =? 0 then 500 else c
  | None => 500
  end.

Inductive result (A : Type) : Type :=
| Ok (a : A)
| Raise (e : exn).

Arguments Ok {A} a.
Arguments Raise {A} e.

Definition bind {A B : Type} (c : result A) (k : A -> result B) : result B :=
  match c with
  | Ok a => k a
  | Raise e => Raise e
  end.

Notation "x <- c ;; k" := (bind c (fun x => k))
  (at level 61, c at next level, right associativity).

Fixpoint mapM {A B : Type} (f : A -> result B) (xs : list A) : result (list B) :=
  match xs with
  | [] => Ok []
  | x :: xs' =>
      match f x with
      | Ok y => match mapM f xs' with
                | Ok ys => Ok (y :: ys)
                | Raise e => Raise e
                end
      | Raise e => Raise e
      end
  end.

(** [d[k]], which raises [KeyError] on a missing key. *)
Definition dict_getitem (k : string) (d : dict) : result value :=
  match dict_get k d with
  | Some v => Ok v
  | None => Raise (KeyError k)
  end.

(* ================================================================== *)
(** ** The serializer: [simplejson.dumps(payload, default=..., ignore_nan=...)]

    The encoder of the [simplejson] package with its default options
    ([ensure_ascii], separators [", "] and [": "], no sorting of keys):
    strings are quoted and escaped to ASCII, containers are walked in order,
    a value the encoder has no native case for is passed to [default] and
    what [default] returns is encoded in its place. *)

Definition hex_digit (n : N) : ascii :=
  match n with
  | 0%N => "0" | 1%N => "1" | 2%N => "2" | 3%N => "3"
  | 4%N => "4" | 5%N => "5" | 6%N => "6" | 7%N => "7"
  | 8%N => "8" | 9%N => "9" | 10%N => "a" | 11%N => "b"
  | 12%N => "c" | 13%N => "d" | 14%N => "e" | _ => "f"
  end%char.

(** ['\\u%04x' % n] for a code point below 256. *)
Definition escape_u (c : ascii) : string :=
  let n := N_of_ascii c in
  "\u00" ++ String (hex_digit (N.div n 16)) (String (hex_digit (N.modulo n 16)) "").

(** The replacement of one character: [ESCAPE_DCT], then [\uXXXX] for what
    lies outside [' '..'~']. *)
Definition escape_char (c : ascii) : string :=
  let n := N_of_ascii c in
  if N.eqb n 92 then "\\"
  else if N.eqb n 34 then String "\" (String c "")
  else if N.eqb n 8 then "\b"
  else if N.eqb n 12 then "\f"
  else if N.eqb n 10 then "\n"
  else if N.eqb n 13 then "\r"
  else if N.eqb n 9 then "\t"
  else if (N.ltb n 32 || N.ltb 126 n)%bool then escape_u c
  else String c "".

Fixpoint escape_string (s : string) : string :=
  match s with
  | EmptyString => EmptyString
  | String c s' => escape_char c ++ escape_string s'
  end.

Definition quote : string := String (ascii_of_N 34) "".

Definition encode_basestring_ascii (s : string) : string :=
  quote ++ escape_string s ++ quote.

Section Encoder.

(** [float.__repr__] on a finite float. *)
Variable float_repr : spec_float -> string.
(** The [default=] hook; [None] results are not distinguished from other
    values. *)
Variable default : value -> result value.
Variable ignore_nan : bool.
Variable allow_nan : bool.

(** [floatstr]: an out-of-range float is [null] under [ignore_nan], which
    overrides [allow_nan]. *)
Definition out_of_range (text : string) : result string :=
  if ignore_nan then Ok "null"
  else if negb allow_nan
       then Raise (ValueError "Out of range float values are not JSON compliant")
       else Ok text.

Definition floatstr (o : spec_float) : result string :=
  match o with
  | S754_nan => out_of_range "NaN"
  | S754_infinity false => out_of_range "Infinity"
  | S754_infinity true => out_of_range "-Infinity"
  | _ => Ok (float_repr o)
  end.

Definition encode_list (parts : list string) : string :=
  "[" ++ String.concat ", " parts ++ "]".

Definition encode_dict (parts : list string) : string :=
  "{" ++ String.concat ", " parts ++ "}".

(** One member of an object: the quoted key, the separator, the value. *)
Definition encode_item (encode : value -> result string) (kv : string * value)
  : result string :=
  s <- encode (snd kv) ;;
  Ok (encode_basestring_ascii (fst kv) ++ ": " ++ s).

Section OneLevel.

(** The encoder for what [default] hands back. *)
Variable encode_converted : value -> result string.

Fixpoint encode_value (o : value) : result string :=
  match o with
  | VNone => Ok "null"
  | VBool true => Ok "true"
  | VBool false => Ok "false"
  | VInt n => Ok (string_of_Z n)
  | VFloat f => floatstr f
  | VStr s => Ok (encode_basestring_ascii s)
  | VList xs =>
      parts <- mapM encode_value xs ;;
      Ok (encode_list parts)
  | VDict items =>
      parts <- mapM (encode_item encode_value) items ;;
      Ok (encode_dict parts)
  | VSet _ | VObj _ =>
      o' <- default o ;;
      encode_converted o'
  end.

End OneLevel.

(** [fuel] bounds the chain of [default] conversions, as the interpreter's
    recursion limit does. *)
Fixpoint iterencode (fuel : nat) (o : value) : result string :=
  match fuel with
  | O => Raise RecursionError
  | S fuel' => encode_value (iterencode fuel') o
  end.

End Encoder.

(* ================================================================== *)
(** ** Responses and headers ([werkzeug]) *)

(** [str.lower] on one code point below 256: the letters [A]-[Z] and the
    capital letters of Latin-1. *)
Definition lower_ascii (c : ascii) : ascii :=
  let n := N_of_ascii c in
  if ((N.leb 65 n && N.leb n 90)
      || (N.leb 192 n && N.leb n 222 && negb (N.eqb n 215)))%bool
  then ascii_of_N (n + 32)
  else c.

Fixpoint lower (s : string) : string :=
  match s with
  | EmptyString => EmptyString
  | String c s' => String (lower_ascii c) (lower s')
  end.

(** A [Headers] object: the list of (key, value) pairs in order; keys are
    compared without regard to case. *)
Definition Headers := list (string * string).

Definition same_key (k k' : string) : bool := String.eqb (lower k) (lower k').

(** [key in headers] *)
Definition headers_contains (k : string) (h : Headers) : bool :=
  existsb (fun kv => same_key k (fst kv)) h.

(** [headers.get(key)]: the first entry under that key. *)
Fixpoint headers_get (k : string) (h : Headers) : option string :=
  match h with
  | [] => None
  | (k', v) :: h' => if same_key k k' then Some v else headers_get k h'
  end.

(** [headers.add(key, value)] appends. *)
Definition headers_add (k v : string) (h : Headers) : Headers := (h ++ [(k, v)])%list.

(** [headers.extend(mapping)]: one [add] per item, existing entries stay. *)
Definition headers_extend (m : list (string * string)) (h : Headers) : Headers :=
  fold_left (fun acc kv => headers_add (fst kv) (snd kv) acc) m h.

(** [headers[key] = value]: the first entry under the key is replaced, the
    later ones are dropped; an absent key is appended. *)
Fixpoint headers_set (k v : string) (h : Headers) : Headers :=
  match h with
  | [] => [(k, v)]
  | (k', v') :: h' =>
      if same_key k k'
      then (k, v) :: filter (fun kv => negb (same_key k (fst kv))) h'
      else (k', v') :: headers_set k v h'
  end.

Record Response := mkResponse {
  data : string;
  status_code : Z;
  headers : Headers
}.

(** The number of bytes of the UTF-8 encoding. *)
Fixpoint utf8_length (s : string) : nat :=
  match s with
  | EmptyString => O
  | String c s' =>
      ((if N.ltb (N_of_ascii c) 128 then 1 else 2) + utf8_length s')%nat
  end.

(** [Response(data, status=status, mimetype=mimetype)]: the content type is
    the mimetype as given (none of the mimetypes used here gets a charset
    appended), the content length is that of the encoded body. *)
Definition Response_ (body : string) (status : Z) (mimetype : string) : Response :=
  {| data := body;
     status_code := status;
     headers := [ ("Content-Type", mimetype);
                  ("Content-Length", string_of_Z (Z.of_nat (utf8_length body))) ] |}.

(** What a view returns: a response object, or the pair
    [(response, status)]. *)
Inductive FlaskResponse :=
| Plain (r : Response)
| WithStatus (r : Response) (status : option Z).

(** The status the client sees: the second component of a pair replaces
    the status of the response unless it is [None]. *)
Definition final_status (r : FlaskResponse) : Z :=
  match r with
  | Plain r => status_code r
  | WithStatus r (Some s) => s
  | WithStatus r None => status_code r
  end.

Definition response_of (r : FlaskResponse) : Response :=
  match r with
  | Plain r => r
  | WithStatus r _ => r
  end.

(* ================================================================== *)
(** ** Configuration and request *)

Record Config := mkConfig {
  DEBUG : bool;
  SHOW_STACKTRACE : bool;
  OVERRIDE_HTTP_HEADERS : list (string * string);
  HTTP_HEADERS : list (string * string);
  DEFAULT_HTTP_HEADERS : list (string * string)
}.

Record Request := mkRequest {
  (** ["text/html" in request.accept_mimetypes] *)
  accepts_text_html : bool;
  (** [request.is_json] *)
  is_json : bool
}.

Definition newline : string := String (ascii_of_N 10) "".

(** [get_error_level_from_status_code] *)
Definition get_error_level_from_status_code (status : Z) : ErrorLevel :=
  if status <? 400 then INFO
  else if status <? 500 then WARNING
  else ERROR.

(* ================================================================== *)
(** ** Response builders, decorators and error handlers *)

Section Views.

Variable float_repr : spec_float -> string.
(** [utils.json_iso_dttm_ser] *)
Variable json_iso_dttm_ser : value -> result value.
(** The value [allow_nan] has when a call does not pass it. *)
Variable allow_nan : bool.
(** How many [default] conversions may nest before the interpreter gives
    up. *)
Variable recursion_limit : nat.
(** [utils.error_msg_from_exception] *)
Variable error_msg_from_exception : exn -> string.
(** [traceback.format_exc()] while the exception is being handled *)
Variable format_exc : exn -> string.
(** [send_file(path, max_age=0)] *)
Variable send_file : string -> Response.
(** [resource_filename("superset", name)] *)
Variable resource_filename : string -> string.
Variable config : Config.

(** [json.dumps(payload, default=utils.json_iso_dttm_ser, ignore_nan=True)] *)
Definition json_dumps (payload : value) : result string :=
  iterencode float_repr json_iso_dttm_ser true allow_nan (S recursion_limit) payload.

Definition hidden_stacktrace_msg : string :=
  "FATAL ERROR " ++ newline ++
  "Stacktrace is hidden. Change the SHOW_STACKTRACE " ++
  "configuration setting to enable it".

Definition get_error_msg (ex : exn) : string :=
  if SHOW_STACKTRACE config then format_exc ex else hidden_stacktrace_msg.

Definition json_error_response
    (msg : option string) (status : Z)
    (payload : option dict) (link : option string) : result FlaskResponse :=
  let payload :=
    match payload with
    | Some (kv :: p) => kv :: p
    | _ => [("error", VStr (format_str msg))]
    end in
  let payload :=
    match link with
    | Some (String c l) => dict_set "link" (VStr (String c l)) payload
    | _ => payload
    end in
  body <- json_dumps (VDict payload) ;;
  Ok (Plain (Response_ body status "application/json")).

Definition json_errors_response
    (errors : list SupersetError) (status : Z)
    (payload : option dict) : result FlaskResponse :=
  let payload :=
    match payload with
    | Some (kv :: p) => kv :: p
    | _ => []
    end in
  let payload := dict_set "errors" (VList (map asdict errors)) payload in
  body <- json_dumps (VDict payload) ;;
  Ok (Plain (Response_ body status "application/json; charset=utf-8")).

Definition json_success (json_msg : string) (status : Z) : FlaskResponse :=
  Plain (Response_ json_msg status "application/json").

Definition data_payload_response (payload_json : string) (has_error : bool)
  : FlaskResponse :=
  let status := if has_error then 400 else 200 in
  json_success payload_json status.

(** The decorator [api], applied to the outcome of the wrapped view. *)
Definition api (f : result FlaskResponse) : result FlaskResponse :=
  match f with
  | Ok r => Ok r
  | Raise (NoAuthorizationError _ as ex) =>
      json_error_response (Some (get_error_msg ex)) 401 None None
  | Raise ex =>
      json_error_response (Some (get_error_msg ex)) 500 None None
  end.

(** The decorator [handle_api_exception]. [cast(int, ex.code)] does
    nothing at run time: a missing code reaches [Response] as [None],
    which then takes its default status 200. *)
Definition handle_api_exception (f : result FlaskResponse) : result FlaskResponse :=
  match f with
  | Ok r => Ok r
  | Raise (SupersetSecurityException error status payload) =>
      json_errors_response [error] status payload
  | Raise (SupersetErrorsException errors status) =>
      json_errors_response errors status None
  | Raise (SupersetErrorException error status) =>
      json_errors_response [error] status None
  | Raise (SupersetException _ status as ex)
  | Raise (CommandException _ status as ex)
  | Raise (CommandInvalidError _ status _ as ex) =>
      json_error_response (Some (error_msg_from_exception ex)) status None None
  | Raise (HTTPException code _ as ex)
  | Raise (CSRFError code _ as ex) =>
      json_error_response (Some (error_msg_from_exception ex))
        (match code with Some c => c | None => 200 end) None None
  | Raise (IntegrityError _ as ex)
  | Raise (DatabaseError _ as ex)
  | Raise (DataError _ as ex) =>
      json_error_response (Some (error_msg_from_exception ex)) 422 None None
  | Raise ex =>
      json_error_response (Some (error_msg_from_exception ex)) 500 None None
  end.

(** [show_superset_error], [show_superset_errors] *)
Definition show_superset_error (error : SupersetError) (status : Z)
  : result FlaskResponse :=
  json_errors_response [error] status None.

Definition show_superset_errors (errors : list SupersetError) (status : Z)
  : result FlaskResponse :=
  json_errors_response errors status None.

(** [show_http_exception], registered for [HTTPException]. *)
Definition show_http_exception (request : Request) (ex : exn)
  : result FlaskResponse :=
  if (accepts_text_html request && negb (DEBUG config)
      && code_in_404_500 (exn_code ex))%bool
  then
    let path :=
      resource_filename
        ("static/assets/" ++ format_code (exn_code ex) ++ ".html") in
    Ok (WithStatus (send_file path) (exn_code ex))
  else
    json_errors_response
      [ {| message := error_msg_from_exception ex;
           error_type := GENERIC_BACKEND_ERROR;
           level := ERROR;
           extra := None |} ]
      (code_or_500 (exn_code ex)) None.

(** [refresh_csrf_token], registered for [CSRFError]; [login_url] is
    [appbuilder.get_url_for_login]. *)
Definition refresh_csrf_token (redirect : string -> Response) (login_url : string)
    (request : Request) (ex : exn) : result FlaskResponse :=
  if is_json request then show_http_exception request ex
  else Ok (Plain (redirect login_url)).

(** [show_command_errors], registered for [CommandException]. *)
Definition show_command_errors (request : Request) (ex : exn)
  : result FlaskResponse :=
  if (accepts_text_html request && negb (DEBUG config))%bool
  then
    let path := resource_filename "static/assets/500.html" in
    Ok (WithStatus (send_file path) (Some 500))
  else
    match command_fields ex with
    | Some (msg, status, invalid) =>
        let extra := match invalid with Some m => m | None => [] end in
        json_errors_response
          [ {| message := msg;
               error_type := GENERIC_COMMAND_ERROR;
               level := get_error_level_from_status_code status;
               extra := Some extra |} ]
          status None
    | None => Raise (AttributeError "message")
    end.

(** [show_unexpected_exception] *)
Definition show_unexpected_exception (request : Request) (ex : exn)
  : result FlaskResponse :=
  if (accepts_text_html request && negb (DEBUG config))%bool
  then
    let path := resource_filename "static/assets/500.html" in
    Ok (WithStatus (send_file path) (Some 500))
  else
    json_errors_response
      [ {| message := error_msg_from_exception ex;
           error_type := GENERIC_BACKEND_ERROR;
           level := ERROR;
           extra := None |} ]
      500 None.

(** [apply_http_headers]: the after-request hook. *)
Definition apply_http_headers (response : Response) : Response :=
  let merged := dict_update (OVERRIDE_HTTP_HEADERS config) (HTTP_HEADERS config) in
  let extended := headers_extend merged (headers response) in
  let final :=
    fold_left
      (fun h kv =>
         if headers_contains (fst kv) h then h
         else headers_set (fst kv) (snd kv) h)
      (DEFAULT_HTTP_HEADERS config) extended in
  {| data := data response;
     status_code := status_code response;
     headers := final |}.

End Views.

(* ================================================================== *)
(** ** Bootstrap payload *)

Definition FRONTEND_CONF_KEYS : list string :=
  [ "SUPERSET_WEBSERVER_TIMEOUT";
    "SUPERSET_DASHBOARD_POSITION_DATA_LIMIT";
    "SUPERSET_DASHBOARD_PERIODICAL_REFRESH_LIMIT";
    "SUPERSET_DASHBOARD_PERIODICAL_REFRESH_WARNING_MESSAGE";
    "DISABLE_DATASET_SOURCE_EDIT";
    "ENABLE_JAVASCRIPT_CONTROLS";
    "DEFAULT_SQLLAB_LIMIT";
    "DEFAULT_VIZ_TYPE";
    "SQL_MAX_ROW";
    "SUPERSET_WEBSERVER_DOMAINS";
    "SQLLAB_SAVE_WARNING_MESSAGE";
    "DISPLAY_MAX_ROW";
    "GLOBAL_ASYNC_QUERIES_TRANSPORT";
    "GLOBAL_ASYNC_QUERIES_POLLING_DELAY";
    "SQL_VALIDATORS_BY_ENGINE";
    "SQLALCHEMY_DOCS_URL";
    "SQLALCHEMY_DISPLAY_TEXT";
    "GLOBAL_ASYNC_QUERIES_WEBSOCKET_URL";
    "DASHBOARD_AUTO_REFRESH_MODE";
    "DASHBOARD_AUTO_REFRESH_INTERVALS";
    "DASHBOARD_VIRTUALIZATION";
    "SCHEDULED_QUERIES";
    "EXCEL_EXTENSIONS";
    "CSV_EXTENSIONS";
    "COLUMNAR_EXTENSIONS";
    "ALLOWED_EXTENSIONS";
    "SAMPLES_ROW_LIMIT";
    "DEFAULT_TIME_FILTER";
    "HTML_SANITIZATION";
    "HTML_SANITIZATION_SCHEMA_EXTENSIONS";
    "WELCOME_PAGE_LAST_TAB";
    "VIZ_TYPE_DENYLIST";
    "ALERT_REPORTS_DEFAULT_CRON_VALUE";
    "ALERT_REPORTS_DEFAULT_RETENTION";
    "ALERT_REPORTS_DEFAULT_WORKING_TIMEOUT";
    "NATIVE_FILTER_DEFAULT_ROW_LIMIT";
    "PREVENT_UNSAFE_DEFAULT_URLS_ON_DATASET" ].

(** Truth value of a Python value. *)
Definition truthy (v : value) : bool :=
  match v with
  | VNone => false
  | VBool b => b
  | VInt n => negb (n =? 0)
  | VFloat (S754_zero _) => false
  | VFloat _ => true
  | VStr EmptyString => false
  | VStr _ => true
  | VList [] | VDict [] | VSet [] => false
  | VList _ | VDict _ | VSet _ => true
  | VObj _ => true
  end.

(** The ambient state [cached_common_bootstrap_data] reads: the
    configuration mapping and what its collaborators return. *)
Record Ambient := mkAmbient {
  conf : dict;
  (** What the callable stored under
      [conf["COMMON_BOOTSTRAP_OVERRIDES_FUNC"]] returns when that key is
      set; whether it is set is read from [conf]. *)
  COMMON_BOOTSTRAP_OVERRIDES_FUNC : dict -> dict;
  (** [bool(get_available_engine_specs()[GSheetsEngineSpec])] *)
  gsheets_installed : bool;
  get_language_pack : string -> value;
  get_feature_flags : value;
  (** The outcome of [menu_data(g.user)]: the menu, or the exception the
      call raises; it subscripts the application's configuration for the
      logo, bug report, documentation and version entries. *)
  menu_data : result value
}.

(** [conf.get(k)] *)
Definition conf_get (a : Ambient) (k : string) : value :=
  match dict_get k (conf a) with
  | Some v => v
  | None => VNone
  end.

(** [ReportRecipientType.EMAIL], [ReportRecipientType.SLACK] *)
Definition EMAIL : value := VStr "Email".
Definition SLACK : value := VStr "Slack".

(** The body of [cached_common_bootstrap_data], before memoization. The
    entries of the dict display are evaluated in the order written: the
    three subscripts of [conf], then [menu_data(g.user)]; the subscript
    [conf["COMMON_BOOTSTRAP_OVERRIDES_FUNC"]] follows once the display is
    built. Each of them ends the call when it raises. *)
Definition common_bootstrap_data (a : Ambient) (user_id : option Z) (locale : string)
  : result dict :=
  let frontend_config :=
    map (fun k => (k, match conf_get a k with
                      | VSet xs => VList xs
                      | v => v
                      end)) FRONTEND_CONF_KEYS in
  let frontend_config :=
    if truthy (conf_get a "SLACK_API_TOKEN")
    then dict_set "ALERT_REPORTS_NOTIFICATION_METHODS" (VList [EMAIL; SLACK]) frontend_config
    else dict_set "ALERT_REPORTS_NOTIFICATION_METHODS" (VList [EMAIL]) frontend_config in
  let frontend_config :=
    dict_set "HAS_GSHEETS_INSTALLED" (VBool (gsheets_installed a)) frontend_config in
  let language_pack := get_language_pack a locale in
  let d3_format := conf_get a "D3_FORMAT" in
  let currencies := conf_get a "CURRENCIES" in
  let feature_flags := get_feature_flags a in
  sequential <- dict_getitem "EXTRA_SEQUENTIAL_COLOR_SCHEMES" (conf a) ;;
  categorical <- dict_getitem "EXTRA_CATEGORICAL_COLOR_SCHEMES" (conf a) ;;
  theme <- dict_getitem "THEME_OVERRIDES" (conf a) ;;
  menu <- menu_data a ;;
  let bootstrap_data :=
    [ ("conf", VDict frontend_config);
      ("locale", VStr locale);
      ("language_pack", language_pack);
      ("d3_format", d3_format);
      ("currencies", currencies);
      ("feature_flags", feature_flags);
      ("extra_sequential_color_schemes", sequential);
      ("extra_categorical_color_schemes", categorical);
      ("theme_overrides", theme);
      ("menu_data", menu) ] in
  _ <- dict_getitem "COMMON_BOOTSTRAP_OVERRIDES_FUNC" (conf a) ;;
  Ok (dict_update bootstrap_data (COMMON_BOOTSTRAP_OVERRIDES_FUNC a bootstrap_data)).

(** *** The memoizing cache ([cache_manager.cache.memoize(timeout=60)])

    The store maps the call's arguments to a value and the time it expires;
    time is in seconds. A call finds a live entry and returns it, or runs
    the function, hands what it returned to the store for [timeout] seconds
    and returns it; a call that raises stores nothing. Which store stands
    behind [cache_manager.cache] is a matter of configuration: one that
    keeps what it is given until it expires, or the null cache, which keeps
    nothing and finds nothing. *)

Definition cache_key := (option Z * string)%type.

Definition cache_key_eqb (k k' : cache_key) : bool :=
  (match fst k, fst k' with
   | Some u, Some u' => u =? u'
   | None, None => true
   | _, _ => false
   end && String.eqb (snd k) (snd k'))%bool.

Record cache_entry := mkEntry {
  expires : Z;
  cached : dict
}.

Definition Cache := list (cache_key * cache_entry).

Fixpoint cache_find (k : cache_key) (c : Cache) : option cache_entry :=
  match c with
  | [] => None
  | (k', e) :: c' => if cache_key_eqb k k' then Some e else cache_find k c'
  end.

Definition cache_get (now : Z) (k : cache_key) (c : Cache) : option dict :=
  match cache_find k c with
  | Some e => if now <? expires e then Some (cached e) else None
  | None => None
  end.

Definition cache_set (now timeout : Z) (k : cache_key) (v : dict) (c : Cache) : Cache :=
  (k, {| expires := now + timeout; cached := v |})
    :: filter (fun ke => negb (cache_key_eqb k (fst ke))) c.

Inductive CacheBackend :=
| NullCache
| KeepingCache.

(** [cache.get(key)] and [cache.set(key, value, timeout)] of the configured
    store. *)
Definition store_get (backend : CacheBackend) (now : Z) (k : cache_key) (c : Cache)
  : option dict :=
  match backend with
  | NullCache => None
  | KeepingCache => cache_get now k c
  end.

Definition store_set (backend : CacheBackend) (now timeout : Z)
    (k : cache_key) (v : dict) (c : Cache) : Cache :=
  match backend with
  | NullCache => c
  | KeepingCache => cache_set now timeout k v c
  end.

Definition memoize (backend : CacheBackend) (timeout : Z)
    (f : option Z -> string -> result dict)
    (now : Z) (c : Cache) (user_id : option Z) (locale : string)
  : result dict * Cache :=
  match store_get backend now (user_id, locale) c with
  | Some v => (Ok v, c)
  | None =>
      match f user_id locale with
      | Ok v => (Ok v, store_set backend now timeout (user_id, locale) v c)
      | Raise e => (Raise e, c)
      end
  end.

Definition cached_common_bootstrap_data (backend : CacheBackend) (a : Ambient) :=
  memoize backend 60 (common_bootstrap_data a).

(** *** Flash messages ([flask.get_flashed_messages])

    The messages wait in the session under ["_flashes"]. The first call of
    a request pops them from the session and keeps them on the request
    context; every later call of the same request reads them from there. *)

Definition flashes := list (string * string).

Record RequestContext := mkRequestContext {
  session_flashes : option flashes;
  ctx_flashes : option flashes;
  (** [utils.get_user_id()], [get_locale()] *)
  current_user_id : option Z;
  current_locale : string
}.

(** [get_flashed_messages(with_categories=True)] *)
Definition get_flashed_messages (rc : RequestContext) : flashes * RequestContext :=
  match ctx_flashes rc with
  | Some fl => (fl, rc)
  | None =>
      let fl := match session_flashes rc with Some fl => fl | None => [] end in
      (fl, {| session_flashes := None;
              ctx_flashes := Some fl;
              current_user_id := current_user_id rc;
              current_locale := current_locale rc |})
  end.

Definition flashes_value (fl : flashes) : value :=
  VList (map (fun cm => VList [VStr (fst cm); VStr (snd cm)]) fl).

(** The next request of the same session starts on a fresh context. *)
Definition next_request (rc : RequestContext) : RequestContext :=
  {| session_flashes := session_flashes rc;
     ctx_flashes := None;
     current_user_id := current_user_id rc;
     current_locale := current_locale rc |}.

(** [common_bootstrap_payload]: the cached part first, the flash messages
    after it; when the first raises the second is not reached. *)
Definition common_bootstrap_payload (backend : CacheBackend) (a : Ambient) (now : Z)
    (c : Cache) (rc : RequestContext)
  : result dict * Cache * RequestContext :=
  match cached_common_bootstrap_data backend a now c
          (current_user_id rc) (current_locale rc) with
  | (Ok common, c') =>
      let (fl, rc') := get_flashed_messages rc in
      (Ok (dict_set "flash_messages" (flashes_value fl) common), c', rc')
  | (Raise e, c') => (Raise e, c', rc)
  end.

(* ================================================================== *)
(** ** Notions used by the statements *)

(** A value the encoder handles without calling [default]. *)
Fixpoint native (v : value) : bool :=
  match v with
  | VNone | VBool _ | VInt _ | VFloat _ | VStr _ => true
  | VList xs => forallb native xs
  | VDict items => forallb (fun kv => native (snd kv)) items
  | VSet _ | VObj _ => false
  end.

Definition native_error (e : SupersetError) : bool :=
  match extra e with
  | Some d => native (VDict d)
  | None => true
  end.

(** [NaN], [Infinity] and [-Infinity]. *)
Definition out_of_range_float (f : spec_float) : bool :=
  match f with
  | S754_nan | S754_infinity _ => true
  | _ => false
  end.

(** The payload in which every [NaN], [Infinity] and [-Infinity], at any
    depth of lists and objects, is replaced by [None]. *)
Fixpoint nulled (v : value) : value :=
  match v with
  | VFloat f => if out_of_range_float f then VNone else VFloat f
  | VList xs => VList (map nulled xs)
  | VDict items => VDict (map (fun kv => (fst kv, nulled (snd kv))) items)
  | _ => v
  end.

(** The JSON text expected for a native value: scalars by their tokens, an
    out-of-range float as [null], containers with their members in order
    under the separators [", "] and [": "]. A value that is not native has
    no such text. *)
Fixpoint render (float_repr : spec_float -> string) (v : value) : string :=
  match v with
  | VNone => "null"
  | VBool true => "true"
  | VBool false => "false"
  | VInt n => string_of_Z n
  | VFloat f => if out_of_range_float f then "null" else float_repr f
  | VStr s => encode_basestring_ascii s
  | VList xs => encode_list (map (render float_repr) xs)
  | VDict items =>
      encode_dict
        (map (fun kv => encode_basestring_ascii (fst kv) ++ ": "
                        ++ render float_repr (snd kv)) items)
  | VSet _ | VObj _ => ""
  end.

(** [sub] occurs in [s]. *)
Definition occurs (sub s : string) : bool :=
  match String.index 0 sub s with
  | Some _ => true
  | None => false
  end.

(** The text of [body] has a member named [k]: the quoted name followed by
    the key separator. *)
Definition has_member (k body : string) : bool :=
  occurs (encode_basestring_ascii k ++ ": ") body.

(** The exceptions of the storage layer that [handle_api_exception] names. *)
Definition storage_exception (ex : exn) : bool :=
  match ex with
  | IntegrityError _ | DatabaseError _ | DataError _ => true
  | _ => false
  end.

(** A Python dict has each key once. *)
Definition dict_wf {A : Type} (d : list (string * A)) : Prop :=
  NoDup (map fst d).

(** Every entry of the cache that is live at [now] holds what the function
    returns in the ambient state [a]: nothing the result depends on has
    changed since the entry was stored. *)
Definition coherent (a : Ambient) (now : Z) (c : Cache) : Prop :=
  forall k e,
    cache_find k c = Some e ->
    now < expires e ->
    common_bootstrap_data a (fst k) (snd k) = Ok (cached e).

(** [r] is the JSON response that carries [p]: its body is what the
    serializer [dumps] makes of [p], or [r] raises what [dumps] raises. *)
Definition serves (dumps : value -> result string)
    (p : dict) (status : Z) (mimetype : string) (r : result FlaskResponse) : Prop :=
  r = (body <- dumps (VDict p) ;; Ok (Plain (Response_ body status mimetype))).

(** *** Sample collaborators and inputs *)

Module Sample.

Definition float_repr (f : spec_float) : string :=
  match f with
  | S754_zero false => "0.0"
  | S754_zero true => "-0.0"
  | _ => "1.5"
  end.

(** A [default] hook that knows none of the objects it is shown. *)
Definition json_iso_dttm_ser (v : value) : result value :=
  Raise (TypeError "Unserializable object").

Definition error_msg_from_exception (ex : exn) : string :=
  match ex with
  | NoAuthorizationError m | SupersetException m _ | CommandException m _
  | CommandInvalidError m _ _ | HTTPException _ m | CSRFError _ m
  | IntegrityError m | DatabaseError m | DataError m | KeyError m
  | TypeError m | ValueError m | AttributeError m | OtherException m => m
  | SupersetSecurityException e _ _ | SupersetErrorException e _ => message e
  | SupersetErrorsException _ _ => "errors"
  | RecursionError => "maximum recursion depth exceeded"
  end.

Definition format_exc (ex : exn) : string :=
  "Traceback (most recent call last): " ++ error_msg_from_exception ex.

Definition send_file (path : string) : Response :=
  {| data := path; status_code := 200;
     headers := [("Content-Type", "text/html; charset=utf-8")] |}.

Definition resource_filename (name : string) : string :=
  "/app/superset/" ++ name.

Definition production : Config :=
  {| DEBUG := false; SHOW_STACKTRACE := false;
     OVERRIDE_HTTP_HEADERS := [("X-Frame-Options", "DENY")];
     HTTP_HEADERS := [("X-Frame-Options", "SAMEORIGIN")];
     DEFAULT_HTTP_HEADERS := [("Cache-Control", "no-store")] |}.

Definition show_traces : Config :=
  {| DEBUG := false; SHOW_STACKTRACE := true;
     OVERRIDE_HTTP_HEADERS := []; HTTP_HEADERS := [];
     DEFAULT_HTTP_HEADERS := [] |}.

Definition browser : Request :=
  {| accepts_text_html := true; is_json := false |}.

Definition api_client : Request :=
  {| accepts_text_html := false; is_json := true |}.

Definition ambient : Ambient :=
  {| conf := [ ("EXTRA_SEQUENTIAL_COLOR_SCHEMES", VList []);
               ("EXTRA_CATEGORICAL_COLOR_SCHEMES", VList []);
               ("THEME_OVERRIDES", VDict []);
               ("COMMON_BOOTSTRAP_OVERRIDES_FUNC", VObj 0);
               ("SQL_MAX_ROW", VInt 100000) ];
     COMMON_BOOTSTRAP_OVERRIDES_FUNC := fun _ => [];
     gsheets_installed := false;
     get_language_pack := fun l => VDict [("lang", VStr l)];
     get_feature_flags := VDict [];
     menu_data := Ok (VDict []) |}.

Definition request_with_flash : RequestContext :=
  {| session_flashes := Some [("info", "Dashboard saved")];
     ctx_flashes := None;
     current_user_id := Some 1;
     current_locale := "en" |}.

(** A payload with out-of-range floats inside a list and inside a nested
    object, and an error whose [extra] holds one. *)
Definition nested_payload : value :=
  VDict [("series", VList [VFloat S754_nan; VInt 2; VFloat (S754_infinity false)]);
         ("meta", VDict [("low", VFloat (S754_infinity true))])].

Definition error_with_nan : SupersetError :=
  {| message := "m"; error_type := GENERIC_BACKEND_ERROR; level := ERROR;
     extra := Some [("values", VList [VFloat S754_nan])] |}.

End Sample.

(* ================================================================== *)
(** ** Further decorators, helpers and hooks *)

(** *** The decorator [deprecated]

    Here the call to the logger is what the decorator is for, so it is kept:
    a record holds the level, the template and its arguments. *)

Record LogRecord := mkLogRecord {
  levelname : string;
  msg_template : string;
  log_args : list string
}.

(** [template % args] for a template whose only directives are [%s]. *)
Fixpoint percent_format (template : string) (args : list string) : result string :=
  match template with
  | EmptyString =>
      match args with
      | [] => Ok ""
      | _ :: _ =>
          Raise (TypeError "not all arguments converted during string formatting")
      end
  | String "%" (String "s" rest) =>
      match args with
      | a :: args' =>
          r <- percent_format rest args' ;;
          Ok (a ++ r)
      | [] => Raise (TypeError "not enough arguments for format string")
      end
  | String c rest =>
      r <- percent_format rest args ;;
      Ok (String c r)
  end.

(** [deprecated(eol_version, new_target)(f)] called on a view of class
    [class_name]; [f_name] is [f.__name__], [f] the outcome of the wrapped
    view. *)
Definition deprecated (eol_version : string) (new_target : option string)
    (class_name f_name : string) (f : result FlaskResponse)
  : list LogRecord * result FlaskResponse :=
  let messsage :=
    "%s.%s " ++
    "This API endpoint is deprecated and will be removed in version %s" in
  let logger_args := [class_name; f_name; eol_version] in
  match new_target with
  | Some (String c t) =>
      let messsage := messsage ++ " . Use the following API endpoint instead: %s" in
      let logger_args := (logger_args ++ [String c t])%list in
      ([mkLogRecord "WARNING" messsage logger_args], f)
  | _ =>
      ([mkLogRecord "WARNING" messsage logger_args], f)
  end.

(** *** [get_environment_tag]

    [values] is [ENVIRONMENT_TAG_CONFIG["values"]], [variable] is
    [ENVIRONMENT_TAG_CONFIG["variable"]], [environ] is [os.environ.get]. *)
Definition get_environment_tag (debug : bool) (values : list (string * dict))
    (variable : string) (environ : string -> option string) : dict :=
  let env_name := environ variable in
  let env_name :=
    if (negb (truthy_str env_name)
        || negb (match env_name with
                 | Some n => dict_mem n values
                 | None => false
                 end))%bool
    then (if debug then Some "debug" else None)
    else env_name in
  let env_tag :=
    match env_name with
    | Some n => dict_get n values
    | None => None
    end in
  match env_tag with
  | Some (kv :: t) => kv :: t
  | _ => []
  end.

(** *** [bind_field] *)

(** [c.isspace()] for a code point below 256. *)
Definition is_space (c : ascii) : bool :=
  let n := N_of_ascii c in
  ((N.leb 9 n && N.leb n 13) || (N.leb 28 n && N.leb n 32)
   || N.eqb n 133 || N.eqb n 160)%bool.

Fixpoint lstrip (s : string) : string :=
  match s with
  | EmptyString => EmptyString
  | String c s' => if is_space c then lstrip s' else s
  end.

Fixpoint rstrip (s : string) : string :=
  match s with
  | EmptyString => EmptyString
  | String c s' =>
      match rstrip s' with
      | EmptyString => if is_space c then EmptyString else String c EmptyString
      | r => String c r
      end
  end.

(** [s.strip()] *)
Definition strip (s : string) : string := rstrip (lstrip s).

(** [lambda x: x.strip() if isinstance(x, str) else x] *)
Definition strip_filter (x : value) : value :=
  match x with
  | VStr s => VStr (strip s)
  | _ => x
  end.

(** [bind_field]: [declared] is the list under ["filters"] in the keyword
    arguments of the unbound field, when there is one. The result is the
    list the field is bound with, and what [declared] is after the call:
    the list of the unbound field is the very list that is appended to. *)
Definition bind_field (declared : option (list (value -> value)))
  : list (value -> value) * option (list (value -> value)) :=
  match declared with
  | Some filters =>
      let filters := (filters ++ [strip_filter])%list in
      (filters, Some filters)
  | None =>
      ([strip_filter], None)
  end.

(** Binding the same unbound field [n] times over; the result is the list
    of the last binding. *)
Fixpoint bind_field_times (n : nat) (declared : option (list (value -> value)))
  : list (value -> value) * option (list (value -> value)) :=
  match n with
  | O => bind_field declared
  | S n' => bind_field_times n' (snd (bind_field declared))
  end.


(** *** The handlers by exception class

    The [errorhandler] registrations of the file: an exception goes to the
    handler of the nearest class that has one. *)

Section ErrorHandlers.

Variable float_repr : spec_float -> string.
Variable json_iso_dttm_ser : value -> result value.
Variable allow_nan : bool.
Variable recursion_limit : nat.
Variable error_msg_from_exception : exn -> string.
Variable send_file : string -> Response.
Variable resource_filename : string -> string.
Variable config : Config.
(** [redirect], [appbuilder.get_url_for_login] *)
Variable redirect : string -> Response.
Variable login_url : string.

Definition errorhandler (request : Request) (ex : exn) : result FlaskResponse :=
  match ex with
  | SupersetSecurityException error status _
  | SupersetErrorException error status =>
      show_superset_error float_repr json_iso_dttm_ser allow_nan recursion_limit
        error status
  | SupersetErrorsException errors status =>
      show_superset_errors float_repr json_iso_dttm_ser allow_nan recursion_limit
        errors status
  | CSRFError _ _ =>
      refresh_csrf_token float_repr json_iso_dttm_ser allow_nan recursion_limit
        error_msg_from_exception send_file resource_filename config
        redirect login_url request ex
  | HTTPException _ _ =>
      show_http_exception float_repr json_iso_dttm_ser allow_nan recursion_limit
        error_msg_from_exception send_file resource_filename config request ex
  | CommandException _ _
  | CommandInvalidError _ _ _ =>
      show_command_errors float_repr json_iso_dttm_ser allow_nan recursion_limit
        send_file resource_filename config request ex
  | _ =>
      show_unexpected_exception float_repr json_iso_dttm_ser allow_nan
        recursion_limit error_msg_from_exception send_file resource_filename
        config request ex
  end.

End ErrorHandlers.

(** *** [DeleteMixin]

    The tables the mixin works on: the rows behind [self.datamodel], the
    permission views and the view menus of the security manager, and the
    flashed messages of the session. A permission view refers to its view
    menu by name, or to none. *)

Record Item := mkItem {
  item_id : Z;
  (** [item.get_perm()] *)
  item_perm : string
}.

Record PermissionView := mkPermissionView {
  pv_id : Z;
  pv_view_menu : option string
}.

Record Tables := mkTables {
  rows : list Item;
  permission_views : list PermissionView;
  view_menus : list string;
  (** (category, message), oldest first *)
  flashed : flashes
}.

(** [flash(message, category)] *)
Definition flash (message category : string) (w : Tables) : Tables :=
  {| rows := rows w;
     permission_views := permission_views w;
     view_menus := view_menus w;
     flashed := (flashed w ++ [(category, message)])%list |}.

(** [security_manager.find_view_menu(name)] *)
Definition find_view_menu (name : string) (w : Tables) : option string :=
  if existsb (String.eqb name) (view_menus w) then Some name else None.

Definition same_view_menu (v v' : option string) : bool :=
  match v, v' with
  | Some n, Some n' => String.eqb n n'
  | None, None => true
  | _, _ => false
  end.

(** Two permission views are the same row. *)
Definition pv_eqb (p q : PermissionView) : bool :=
  ((pv_id p =? pv_id q) && same_view_menu (pv_view_menu p) (pv_view_menu q))%bool.

Section DeleteMixin.

(** The hooks of the view: [None] when the hook returns, the exception when
    it raises. They are checks, with no effect of their own on the
    tables. *)
Variable pre_delete : Item -> option exn.
Variable post_delete : Item -> option exn.
(** [self._base_filters], as a test on a row *)
Variable base_filters : Item -> bool.
(** Whether [self.datamodel.delete(item)] succeeds, and
    [self.datamodel.message] after it, as (message, category). *)
Variable deletable : Item -> bool.
Variable datamodel_message : Item -> bool -> string * string.
(** [str(ex)] *)
Variable str_of_exception : exn -> string.
(** [redirect(self.get_redirect())] *)
Variable redirect_back : Response.

(** [self.datamodel.get(primary_key, self._base_filters)] *)
Definition datamodel_get (primary_key : Z) (w : Tables) : option Item :=
  find (fun r => (item_id r =? primary_key) && base_filters r)%bool (rows w).

(** [abort(404)] *)
Definition abort_404 : exn := HTTPException (Some 404) "Not Found".

(** [_delete]; [update_redirect] has no part in what is modelled. *)
Definition _delete (primary_key : Z) (w : Tables) : result unit * Tables :=
  match datamodel_get primary_key w with
  | None => (Raise abort_404, w)
  | Some item =>
      match pre_delete item with
      | Some ex => (Ok tt, flash (str_of_exception ex) "danger" w)
      | None =>
          let view_menu := find_view_menu (item_perm item) w in
          let pvs :=
            filter (fun pv => same_view_menu (pv_view_menu pv) view_menu)
              (permission_views w) in
          if deletable item
          then
            let w :=
              {| rows := filter (fun r => negb (item_id r =? item_id item)) (rows w);
                 permission_views := permission_views w;
                 view_menus := view_menus w;
                 flashed := flashed w |} in
            match post_delete item with
            | Some ex => (Raise ex, w)
            | None =>
                let w :=
                  {| rows := rows w;
                     permission_views :=
                       filter (fun pv => negb (existsb (pv_eqb pv) pvs))
                         (permission_views w);
                     view_menus :=
                       match view_menu with
                       | Some name =>
                           filter (fun n => negb (String.eqb n name)) (view_menus w)
                       | None => view_menus w
                       end;
                     flashed := flashed w |} in
                (Ok tt,
                 flash (fst (datamodel_message item true))
                   (snd (datamodel_message item true)) w)
            end
          else
            (Ok tt,
             flash (fst (datamodel_message item false))
               (snd (datamodel_message item false)) w)
      end
  end.

(** The loop of [muldelete]: the exception of a [pre_delete] is flashed and
    the loop goes on; an exception of [_delete] ends it. *)
Fixpoint muldelete_loop (items : list Item) (w : Tables) : result unit * Tables :=
  match items with
  | [] => (Ok tt, w)
  | item :: items' =>
      match pre_delete item with
      | Some ex =>
          muldelete_loop items' (flash (str_of_exception ex) "danger" w)
      | None =>
          match _delete (item_id item) w with
          | (Ok _, w') => muldelete_loop items' w'
          | (Raise ex, w') => (Raise ex, w')
          end
      end
  end.

(** [muldelete] *)
Definition muldelete (items : list Item) (w : Tables) : result FlaskResponse * Tables :=
  match items with
  | [] => (Raise abort_404, w)
  | _ :: _ =>
      match muldelete_loop items w with
      | (Ok _, w') => (Ok (Plain redirect_back), w')
      | (Raise ex, w') => (Raise ex, w')
      end
  end.

End DeleteMixin.

(** *** Notions used by the further statements *)

(** The exception is a [NoAuthorizationError]. *)
Definition is_no_authorization (ex : exn) : bool :=
  match ex with
  | NoAuthorizationError _ => true
  | _ => false
  end.

(** The exception carries structured errors: the three classes that
    [handle_api_exception] answers with [json_errors_response]. *)
Definition carries_errors (ex : exn) : bool :=
  match ex with
  | SupersetSecurityException _ _ _
  | SupersetErrorsException _ _
  | SupersetErrorException _ _ => true
  | _ => false
  end.

(** Everything the exception hands to the serializer is JSON-native. *)
Definition native_exception (ex : exn) : bool :=
  match ex with
  | SupersetSecurityException e _ p =>
      (native_error e
       && match p with Some d => native (VDict d) | None => true end)%bool
  | SupersetErrorException e _ => native_error e
  | SupersetErrorsException es _ => forallb native_error es
  | CommandInvalidError _ _ normalized => native (VDict normalized)
  | _ => true
  end.



(** The hook returns. *)
Definition passes (hook : Item -> option exn) (i : Item) : bool :=
  match hook i with
  | None => true
  | Some _ => false
  end.

(** The keys of a dict, in order. *)
Definition keys {A : Type} (d : list (string * A)) : list string := map fst d.

(** *** Further sample inputs *)

Module MoreSample.

Definition redirect (location : string) : Response :=
  {| data := ""; status_code := 302; headers := [("Location", location)] |}.

Definition stale_ambient : Ambient :=
  {| conf := [ ("THEME_OVERRIDES", VDict []) ];
     COMMON_BOOTSTRAP_OVERRIDES_FUNC := fun _ => [];
     gsheets_installed := false;
     get_language_pack := fun l => VDict [];
     get_feature_flags := VDict [];
     menu_data := Ok (VDict []) |}.

(** The ambient state before the row limit was raised. *)
Definition earlier_ambient : Ambient :=
  {| conf := [ ("EXTRA_SEQUENTIAL_COLOR_SCHEMES", VList []);
               ("EXTRA_CATEGORICAL_COLOR_SCHEMES", VList []);
               ("THEME_OVERRIDES", VDict []);
               ("COMMON_BOOTSTRAP_OVERRIDES_FUNC", VObj 0);
               ("SQL_MAX_ROW", VInt 50000) ];
     COMMON_BOOTSTRAP_OVERRIDES_FUNC := fun _ => [];
     gsheets_installed := false;
     get_language_pack := fun l => VDict [("lang", VStr l)];
     get_feature_flags := VDict [];
     menu_data := Ok (VDict []) |}.

Definition tags : list (string * dict) :=
  [ ("debug", [("color", VStr "error.base"); ("text", VStr "flask-debug")]);
    ("production", [("color", VStr ""); ("text", VStr "")]) ].

Definition environ (name : string) : option string :=
  if String.eqb name "SUPERSET_ENV" then Some "production" else None.

Definition chart : Item := {| item_id := 1; item_perm := "[main].[births]" |}.
Definition dataset : Item := {| item_id := 2; item_perm := "[main].[names]" |}.
Definition report : Item := {| item_id := 3; item_perm := "[main].[usage]" |}.

Definition tables : Tables :=
  {| rows := [chart; dataset; report];
     permission_views :=
       [ {| pv_id := 10; pv_view_menu := Some "[main].[births]" |};
         {| pv_id := 11; pv_view_menu := Some "[main].[names]" |};
         {| pv_id := 12; pv_view_menu := Some "[main].[births]" |} ];
     view_menus := ["[main].[births]"; "[main].[names]"];
     flashed := [] |}.

(** The dataset is in use and may not be deleted. *)
Definition pre_delete (i : Item) : option exn :=
  if item_id i =? 2 then Some (OtherException "Dataset is in use") else None.

Definition post_delete (i : Item) : option exn := None.
Definition base_filters (i : Item) : bool := true.
Definition deletable (i : Item) : bool := true.

Definition datamodel_message (i : Item) (deleted : bool) : string * string :=
  if deleted then ("Deleted Row", "success") else ("General Error", "danger").

End MoreSample.

(* ================================================================== *)
(** * Properties *)

(** ** Dictionaries *)

Lemma dict_get_set_same {A : Type} (k : string) (v : A) (d : list (string * A)) :
  dict_get k (dict_set k v d) = Some v.
Proof.
  induction d as [|[k' v'] d IH]; simpl.
  - now rewrite String.eqb_refl.
  - destruct (String.eqb k k') eqn:E; simpl.
    + now rewrite String.eqb_refl.
    + now rewrite E.
Qed.

Lemma dict_get_set_other {A : Type} (k k' : string) (v : A) (d : list (string * A)) :
  k <> k' -> dict_get k (dict_set k' v d) = dict_get k d.
Proof.
  intros Hne. induction d as [|[k0 v0] d IH]; simpl.
  - destruct (String.eqb k k') eqn:E; [apply String.eqb_eq in E; contradiction | reflexivity].
  - destruct (String.eqb k' k0) eqn:E0; simpl.
    + apply String.eqb_eq in E0. subst k0.
      destruct (String.eqb k k') eqn:E; [apply String.eqb_eq in E; contradiction | reflexivity].
    + now rewrite IH.
Qed.

Lemma dict_get_In {A : Type} (k : string) (v : A) (d : list (string * A)) :
  dict_get k d = Some v -> In (k, v) d.
Proof.
  induction d as [|[k' v'] d IH]; simpl; [discriminate|].
  destruct (String.eqb k k') eqn:E.
  - apply String.eqb_eq in E. intros [= ->]. subst. now left.
  - intros H. right. now apply IH.
Qed.

Lemma dict_get_None_notin {A : Type} (k : string) (d : list (string * A)) :
  ~ In k (map fst d) -> dict_get k d = None.
Proof.
  induction d as [|[k' v'] d IH]; simpl; [reflexivity|].
  intros Hn. destruct (String.eqb k k') eqn:E.
  - apply String.eqb_eq in E. exfalso. apply Hn. now left.
  - apply IH. intros Hin. apply Hn. now right.
Qed.

Lemma dict_update_get_skip {A : Type} (k : string) (d e : list (string * A)) :
  dict_get k e = None -> dict_get k (dict_update d e) = dict_get k d.
Proof.
  unfold dict_update. revert d.
  induction e as [|[k' v'] e IH]; intros d; simpl; [reflexivity|].
  destruct (String.eqb k k') eqn:E; [discriminate|].
  intros He. rewrite IH by assumption.
  apply dict_get_set_other. intros ->. now rewrite String.eqb_refl in E.
Qed.

(** In [{**d, **e}] the value of [e] stands under every key of [e]. *)
Lemma dict_update_get_right {A : Type} (k : string) (v : A) (d e : list (string * A)) :
  dict_wf e -> dict_get k e = Some v -> dict_get k (dict_update d e) = Some v.
Proof.
  unfold dict_update, dict_wf. revert d.
  induction e as [|[k' v'] e IH]; intros d Hwf; simpl; [discriminate|].
  inversion Hwf as [|? ? Hnotin Hwf']; subst.
  destruct (String.eqb k k') eqn:E.
  - apply String.eqb_eq in E. subst k'. intros [= ->].
    change (dict_get k (dict_update (dict_set k v d) e) = Some v).
    rewrite dict_update_get_skip by now apply dict_get_None_notin.
    apply dict_get_set_same.
  - intros He. now apply IH.
Qed.

Lemma dict_get_notin {A : Type} (k : string) (d : list (string * A)) :
  dict_get k d = None -> ~ In k (map fst d).
Proof.
  induction d as [|[k' v'] d IH]; simpl; [tauto|].
  destruct (String.eqb k k') eqn:E; [discriminate|].
  intros Hg [Hk | Hin]; [|now apply IH].
  subst k'. now rewrite String.eqb_refl in E.
Qed.

(** In a dict the pair of a key is the one [dict_get] finds. *)
Lemma dict_wf_In_get {A : Type} (k : string) (v : A) (d : list (string * A)) :
  dict_wf d -> In (k, v) d -> dict_get k d = Some v.
Proof.
  unfold dict_wf. induction d as [|[k' v'] d IH]; simpl; [contradiction|].
  intros Hwf Hin. inversion Hwf as [|? ? Hnotin Hwf']; subst.
  destruct Hin as [[= -> ->] | Hin].
  - now rewrite String.eqb_refl.
  - destruct (String.eqb k k') eqn:E; [|now apply IH].
    apply String.eqb_eq in E. subst k'. exfalso. apply Hnotin.
    change k with (fst (k, v)). now apply in_map.
Qed.

(** [d[k] = v] keeps the keys of [d] in place and puts a new key last. *)
Lemma dict_set_keys {A : Type} (k : string) (v : A) (d : list (string * A)) :
  map fst (dict_set k v d)
  = if dict_mem k d then map fst d else (map fst d ++ [k])%list.
Proof.
  unfold dict_mem. induction d as [|[k' v'] d IH]; simpl; [reflexivity|].
  destruct (String.eqb k k') eqn:E; simpl.
  - apply String.eqb_eq in E. now subst k'.
  - rewrite IH. now destruct (dict_get k d).
Qed.

Lemma dict_set_wf {A : Type} (k : string) (v : A) (d : list (string * A)) :
  dict_wf d -> dict_wf (dict_set k v d).
Proof.
  unfold dict_wf. intros Hwf. rewrite dict_set_keys. unfold dict_mem.
  destruct (dict_get k d) eqn:E; [exact Hwf|].
  apply NoDup_app; [exact Hwf | constructor; [intros [] | constructor] |].
  intros a Ha [<- | []]. now apply (dict_get_notin _ _ E).
Qed.

Lemma dict_update_wf {A : Type} (d e : list (string * A)) :
  dict_wf d -> dict_wf (dict_update d e).
Proof.
  unfold dict_update. revert d.
  induction e as [|[k v] e IH]; intros d Hwf; simpl; [exact Hwf|].
  apply IH. now apply dict_set_wf.
Qed.

(** ** The serializer *)

Section EncoderFacts.

Variable float_repr : spec_float -> string.
Variable default : value -> result value.

(** Under [ignore_nan] no float makes [floatstr] raise. *)
Lemma floatstr_ignore_nan (allow_nan : bool) (f : spec_float) :
  floatstr float_repr true allow_nan f =
  Ok (if out_of_range_float f then "null" else float_repr f).
Proof. destruct f as [s| [|] | |s m e]; reflexivity. Qed.

(** The equations of [encode_value] on containers. *)
Lemma encode_value_list (enc : value -> result string) (allow_nan : bool) xs :
  encode_value float_repr default true allow_nan enc (VList xs) =
  (parts <- mapM (encode_value float_repr default true allow_nan enc) xs ;;
   Ok (encode_list parts)).
Proof. reflexivity. Qed.

Lemma encode_value_dict (enc : value -> result string) (allow_nan : bool) items :
  encode_value float_repr default true allow_nan enc (VDict items) =
  (parts <- mapM (encode_item (encode_value float_repr default true allow_nan enc)) items ;;
   Ok (encode_dict parts)).
Proof. reflexivity. Qed.

Lemma native_encodes (enc : value -> result string) (allow_nan : bool) :
  forall v, native v = true ->
    exists s, encode_value float_repr default true allow_nan enc v = Ok s.
Proof.
  fix IH 1. intros v Hv. destruct v as [|b|n|f|s|xs|items|xs|h];
    try discriminate Hv.
  - eexists; reflexivity.
  - destruct b; eexists; reflexivity.
  - eexists; reflexivity.
  - simpl. rewrite floatstr_ignore_nan. eexists; reflexivity.
  - eexists; reflexivity.
  - rewrite encode_value_list.
    assert (Hl : exists ss,
               mapM (encode_value float_repr default true allow_nan enc) xs = Ok ss).
    { simpl in Hv. induction xs as [|x xs IHxs].
      - eexists; reflexivity.
      - simpl in Hv. apply andb_prop in Hv as [Hx Hxs].
        destruct (IH x Hx) as [sx Ex].
        destruct (IHxs Hxs) as [ss Es].
        exists (sx :: ss). simpl. now rewrite Ex, Es. }
    destruct Hl as [ss ->]. eexists; reflexivity.
  - rewrite encode_value_dict.
    assert (Hl : exists ss,
               mapM (encode_item (encode_value float_repr default true allow_nan enc))
                    items = Ok ss).
    { simpl in Hv. induction items as [|[k x] items IHxs].
      - eexists; reflexivity.
      - simpl in Hv. apply andb_prop in Hv as [Hx Hxs].
        destruct (IH x Hx) as [sx Ex].
        destruct (IHxs Hxs) as [ss Es].
        eexists. simpl. unfold encode_item at 1. simpl.
        rewrite Ex. simpl. rewrite Es. reflexivity. }
    destruct Hl as [ss ->]. eexists; reflexivity.
Qed.

Lemma encode_value_list_flags
    (enc : value -> result string) (ignore_nan allow_nan : bool) xs :
  encode_value float_repr default ignore_nan allow_nan enc (VList xs) =
  (parts <- mapM (encode_value float_repr default ignore_nan allow_nan enc) xs ;;
   Ok (encode_list parts)).
Proof. reflexivity. Qed.

Lemma encode_value_dict_flags
    (enc : value -> result string) (ignore_nan allow_nan : bool) items :
  encode_value float_repr default ignore_nan allow_nan enc (VDict items) =
  (parts <- mapM (encode_item
                    (encode_value float_repr default ignore_nan allow_nan enc)) items ;;
   Ok (encode_dict parts)).
Proof. reflexivity. Qed.

(** With [ignore_nan] the encoder writes a native value as [render] has
    it, whatever [allow_nan] is. *)
Lemma native_encodes_render (enc : value -> result string) (allow_nan : bool) :
  forall v, native v = true ->
    encode_value float_repr default true allow_nan enc v
    = Ok (render float_repr v).
Proof.
  fix IH 1. intros v Hv. destruct v as [|b|n|f|s|xs|items|xs|h];
    try discriminate Hv.
  - reflexivity.
  - destruct b; reflexivity.
  - reflexivity.
  - simpl. now rewrite floatstr_ignore_nan.
  - reflexivity.
  - rewrite encode_value_list.
    assert (Hl : mapM (encode_value float_repr default true allow_nan enc) xs
                 = Ok (map (render float_repr) xs)).
    { simpl in Hv. induction xs as [|x xs IHxs]; [reflexivity|].
      simpl in Hv. apply andb_prop in Hv as [Hx Hxs].
      simpl. now rewrite (IH x Hx), (IHxs Hxs). }
    now rewrite Hl.
  - rewrite encode_value_dict.
    assert (Hl : mapM (encode_item (encode_value float_repr default true allow_nan enc))
                   items
                 = Ok (map (fun kv => encode_basestring_ascii (fst kv) ++ ": "
                                      ++ render float_repr (snd kv)) items)).
    { simpl in Hv. induction items as [|[k x] items IHxs]; [reflexivity|].
      simpl in Hv. apply andb_prop in Hv as [Hx Hxs].
      simpl. unfold encode_item at 1. simpl.
      rewrite (IH x Hx). simpl. now rewrite (IHxs Hxs). }
    now rewrite Hl.
Qed.

(** Whatever the two flags are, the encoder writes the nulled payload of
    a native value as [render] has the value itself. *)
Lemma nulled_encodes_render
    (enc : value -> result string) (ignore_nan allow_nan : bool) :
  forall v, native v = true ->
    encode_value float_repr default ignore_nan allow_nan enc (nulled v)
    = Ok (render float_repr v).
Proof.
  fix IH 1. intros v Hv. destruct v as [|b|n|f|s|xs|items|xs|h];
    try discriminate Hv.
  - reflexivity.
  - destruct b; reflexivity.
  - reflexivity.
  - destruct f as [sg| [|] | |sg m e]; reflexivity.
  - reflexivity.
  - change (nulled (VList xs)) with (VList (map nulled xs)).
    rewrite encode_value_list_flags.
    assert (Hl : mapM (encode_value float_repr default ignore_nan allow_nan enc)
                   (map nulled xs)
                 = Ok (map (render float_repr) xs)).
    { simpl in Hv. induction xs as [|x xs IHxs]; [reflexivity|].
      simpl in Hv. apply andb_prop in Hv as [Hx Hxs].
      simpl. now rewrite (IH x Hx), (IHxs Hxs). }
    now rewrite Hl.
  - change (nulled (VDict items))
      with (VDict (map (fun kv => (fst kv, nulled (snd kv))) items)).
    rewrite encode_value_dict_flags.
    assert (Hl : mapM (encode_item
                         (encode_value float_repr default ignore_nan allow_nan enc))
                   (map (fun kv => (fst kv, nulled (snd kv))) items)
                 = Ok (map (fun kv => encode_basestring_ascii (fst kv) ++ ": "
                                      ++ render float_repr (snd kv)) items)).
    { simpl in Hv. induction items as [|[k x] items IHxs]; [reflexivity|].
      simpl in Hv. apply andb_prop in Hv as [Hx Hxs].
      simpl. unfold encode_item at 1. simpl.
      rewrite (IH x Hx). simpl. now rewrite (IHxs Hxs). }
    now rewrite Hl.
Qed.

End EncoderFacts.

Lemma forallb_dict_set {A : Type} (P : string * A -> bool) k v (d : list (string * A)) :
  forallb P d = true -> P (k, v) = true -> forallb P (dict_set k v d) = true.
Proof.
  intros Hd Hkv. induction d as [|[k' v'] d IH]; simpl in *.
  - now rewrite Hkv.
  - apply andb_prop in Hd as [H1 H2].
    destruct (String.eqb k k'); simpl.
    + now rewrite Hkv, H2.
    + now rewrite H1, IH.
Qed.

Lemma native_asdict (errors : list SupersetError) :
  forallb native_error errors = true -> native (VList (map asdict errors)) = true.
Proof.
  change (native (VList (map asdict errors)))
    with (forallb native (map asdict errors)).
  induction errors as [|e errors IH]; simpl; [reflexivity|].
  intros H. apply andb_prop in H as [He Hes].
  rewrite (IH Hes), !andb_true_r.
  unfold native_error in He. destruct (extra e); [exact He | reflexivity].
Qed.

(** ** Response builders, decorators and handlers *)

(** *** C10. The level of a status code. *)

(** C10: [get_error_level_from_status_code] is defined on every integer and
    answers [INFO] exactly below 400, [WARNING] exactly from 400 up to 499
    and [ERROR] exactly from 500 on. *)
Theorem error_level_from_status_code (status : Z) :
  (get_error_level_from_status_code status = INFO <-> status < 400) /\
  (get_error_level_from_status_code status = WARNING <-> 400 <= status < 500) /\
  (get_error_level_from_status_code status = ERROR <-> 500 <= status).
Proof.
  unfold get_error_level_from_status_code.
  destruct (status <? 400) eqn:E4; [apply Z.ltb_lt in E4 | apply Z.ltb_ge in E4];
    (destruct (status <? 500) eqn:E5; [apply Z.ltb_lt in E5 | apply Z.ltb_ge in E5]);
    repeat split; intros; try discriminate; try lia; try reflexivity.
Qed.

Section ViewFacts.

Variable float_repr : spec_float -> string.
Variable json_iso_dttm_ser : value -> result value.
Variable allow_nan : bool.
Variable recursion_limit : nat.
Variable error_msg_from_exception : exn -> string.
Variable format_exc : exn -> string.
Variable send_file : string -> Response.
Variable resource_filename : string -> string.
Variable config : Config.

Local Abbreviation dumps := (json_dumps float_repr json_iso_dttm_ser allow_nan recursion_limit).
Local Abbreviation error_response :=
  (json_error_response float_repr json_iso_dttm_ser allow_nan recursion_limit).
Local Abbreviation errors_response :=
  (json_errors_response float_repr json_iso_dttm_ser allow_nan recursion_limit).

Lemma dumps_unfold (v : value) :
  dumps v =
  encode_value float_repr json_iso_dttm_ser true allow_nan
    (iterencode float_repr json_iso_dttm_ser true allow_nan recursion_limit) v.
Proof. reflexivity. Qed.

Lemma dumps_native (v : value) :
  native v = true -> exists s, dumps v = Ok s.
Proof. intros Hv. rewrite dumps_unfold. now apply native_encodes. Qed.

(** [json.dumps(..., ignore_nan=True)] writes a native payload as [render]
    has it. *)
Lemma dumps_render (v : value) :
  native v = true -> dumps v = Ok (render float_repr v).
Proof. intros Hv. rewrite dumps_unfold. now apply native_encodes_render. Qed.

(** The one-member object [{"error": m}] always serializes. *)
Lemma dumps_error_object (m : string) :
  exists body, dumps (VDict [("error", VStr m)]) = Ok body.
Proof. now apply dumps_native. Qed.

Lemma error_response_plain (m : string) (status : Z) :
  exists body,
    dumps (VDict [("error", VStr m)]) = Ok body /\
    error_response (Some m) status None None
    = Ok (Plain (Response_ body status "application/json")).
Proof.
  destruct (dumps_error_object m) as [body Hb].
  exists body. split; [assumption|].
  unfold json_error_response. simpl format_str. now rewrite Hb.
Qed.

(** *** C1. Storage errors inside [handle_api_exception]. *)

(** C1 (as amended): an [IntegrityError], [DatabaseError] or [DataError]
    raised under [handle_api_exception] becomes a response of status 422
    and content type [application/json] whose body is the serialization
    of the one-member object [{"error": message}], the message being
    [error_msg_from_exception] of the exception. There is no ["errors"]
    list. *)
Theorem storage_error_is_free_text_422 (ex : exn) :
  storage_exception ex = true ->
  exists body,
    dumps (VDict [("error", VStr (error_msg_from_exception ex))]) = Ok body /\
    handle_api_exception float_repr json_iso_dttm_ser allow_nan recursion_limit
      error_msg_from_exception (Raise ex)
    = Ok (Plain (Response_ body 422 "application/json")).
Proof.
  intros Hex.
  destruct (error_response_plain (error_msg_from_exception ex) 422) as [body [Hb Hr]].
  exists body. split; [assumption|].
  destruct ex; try discriminate Hex; exact Hr.
Qed.

(** *** C6. Missing authorization inside [api]. *)

(** C6 (as amended): a [NoAuthorizationError] raised under [api] becomes a
    response of status 401 whose body is the one-member object
    [{"error": message}]. The message is the fixed text that hides the
    stack trace when [SHOW_STACKTRACE] is off, and the formatted stack
    trace when it is on. *)
Theorem api_no_authorization_401 (m : string) :
  exists body,
    dumps (VDict [("error",
                   VStr (if SHOW_STACKTRACE config
                         then format_exc (NoAuthorizationError m)
                         else hidden_stacktrace_msg))]) = Ok body /\
    api float_repr json_iso_dttm_ser allow_nan recursion_limit format_exc config
      (Raise (NoAuthorizationError m))
    = Ok (Plain (Response_ body 401 "application/json")).
Proof.
  apply (error_response_plain
           (if SHOW_STACKTRACE config
            then format_exc (NoAuthorizationError m)
            else hidden_stacktrace_msg) 401).
Qed.

(** *** C7. The free-text error builder. *)

(** C7 (as amended): [json_error_response] serializes, at the given status
    and with content type [application/json], the object
    [{"error": message}] when the extra mapping is absent or empty, and the
    extra mapping itself, without the message, when it is not empty; the
    key ["link"] is set on that object exactly when a non-empty link is
    supplied. *)
Theorem json_error_response_body
    (msg : option string) (status : Z) (payload : option dict) (link : option string) :
  let r := error_response msg status payload link in
  (truthy_dict payload = false -> truthy_str link = false ->
   serves dumps [("error", VStr (format_str msg))] status "application/json" r) /\
  (truthy_dict payload = false -> forall l, link = Some l -> l <> "" ->
   serves dumps [("error", VStr (format_str msg)); ("link", VStr l)]
     status "application/json" r) /\
  (forall p, payload = Some p -> p <> [] -> truthy_str link = false ->
   serves dumps p status "application/json" r) /\
  (forall p l, payload = Some p -> p <> [] -> link = Some l -> l <> "" ->
   serves dumps (dict_set "link" (VStr l) p) status "application/json" r) /\
  (forall resp, r = Ok resp ->
   final_status resp = status /\
   headers_get "content-type" (headers (response_of resp)) = Some "application/json").
Proof.
  unfold serves, json_error_response. cbv zeta.
  repeat split.
  - intros Hp Hl.
    destruct payload as [[|kv p]|]; try discriminate Hp;
      destruct link as [[|c l]|]; try discriminate Hl; reflexivity.
  - intros Hp l -> Hl.
    destruct payload as [[|kv p]|]; try discriminate Hp;
      destruct l as [|c l]; try contradiction; reflexivity.
  - intros p -> Hp Hl.
    destruct p as [|kv p]; [contradiction|].
    destruct link as [[|c l]|]; try discriminate Hl; reflexivity.
  - intros p l -> Hp -> Hl.
    destruct p as [|kv p]; [contradiction|].
    destruct l as [|c l]; [contradiction|]. reflexivity.
  - destruct (dumps _) as [body|e]; simpl in H; [|discriminate].
    injection H as <-. reflexivity.
  - destruct (dumps _) as [body|e]; simpl in H; [|discriminate].
    injection H as <-. reflexivity.
Qed.

(** *** C2. Floats in payloads. *)

(** C2 (as amended): with [ignore_nan] set, a payload made of JSON-native
    values, floats of any kind among them at any depth of lists and
    objects, makes neither the serializer nor [json_error_response] nor
    [json_errors_response] raise. The text written is that of [render]:
    every [NaN], [Infinity] and [-Infinity] is written as [null], and the
    text is the one a strict encoder, which refuses such floats, writes for
    the payload in which each of them is replaced by [None]. The body of
    either builder is that text for the object the builder assembles. *)
Theorem builders_write_out_of_range_floats_as_null :
  (forall v, native v = true ->
     dumps v = Ok (render float_repr v) /\
     iterencode float_repr json_iso_dttm_ser false false (S recursion_limit)
       (nulled v) = dumps v) /\
  (forall k f, out_of_range_float f = true ->
     dumps (VDict [(k, VFloat f)])
     = Ok (encode_dict [encode_basestring_ascii k ++ ": null"])) /\
  (forall fs, forallb out_of_range_float fs = true ->
     dumps (VList (map VFloat fs))
     = Ok (encode_list (map (fun _ => "null") fs))) /\
  (forall msg status payload link,
     native (VDict (match payload with Some p => p | None => [] end)) = true ->
     error_response msg status payload link
     = let p := match payload with
                | Some (kv :: p) => kv :: p
                | _ => [("error", VStr (format_str msg))]
                end in
       let p := match link with
                | Some (String c l) => dict_set "link" (VStr (String c l)) p
                | _ => p
                end in
       Ok (Plain (Response_ (render float_repr (VDict p)) status
                    "application/json"))) /\
  (forall errors status payload,
     forallb native_error errors = true ->
     native (VDict (match payload with Some p => p | None => [] end)) = true ->
     errors_response errors status payload
     = let p := match payload with
                | Some (kv :: p) => kv :: p
                | _ => []
                end in
       Ok (Plain (Response_
                    (render float_repr
                       (VDict (dict_set "errors" (VList (map asdict errors)) p)))
                    status "application/json; charset=utf-8"))).
Proof.
  pose proof dumps_render as Hdumps.
  split; [|split; [|split; [|split]]].
  - intros v Hv. split; [now apply Hdumps|].
    rewrite (Hdumps v Hv).
    change (iterencode float_repr json_iso_dttm_ser false false (S recursion_limit)
              (nulled v))
      with (encode_value float_repr json_iso_dttm_ser false false
              (iterencode float_repr json_iso_dttm_ser false false recursion_limit)
              (nulled v)).
    now apply nulled_encodes_render.
  - intros k f Hf. rewrite Hdumps by reflexivity.
    cbn [render map fst snd]. now rewrite Hf.
  - intros fs Hfs.
    assert (Hn : native (VList (map VFloat fs)) = true).
    { change (forallb native (map VFloat fs) = true).
      clear Hfs. induction fs as [|f fs IH]; [reflexivity | exact IH]. }
    rewrite (Hdumps _ Hn). cbn [render]. do 2 f_equal.
    induction fs as [|f fs IH]; [reflexivity|].
    simpl in Hfs. apply andb_prop in Hfs as [Hf Hfs].
    cbn [map render]. now rewrite Hf, (IH Hfs).
  - intros msg status payload link Hp. unfold json_error_response. cbv zeta.
    match goal with
    | |- (body <- dumps ?v ;; _) = _ => assert (Hn : native v = true)
    end.
    { destruct payload as [[|kv p]|]; destruct link as [[|c l]|];
        try reflexivity; try exact Hp.
      apply (forallb_dict_set (fun kv : string * value => native (snd kv)));
        [exact Hp | reflexivity]. }
    now rewrite (Hdumps _ Hn).
  - intros errors status payload He Hp. unfold json_errors_response. cbv zeta.
    match goal with
    | |- (body <- dumps ?v ;; _) = _ => assert (Hn : native v = true)
    end.
    { destruct payload as [[|kv p]|];
        apply (forallb_dict_set (fun kv : string * value => native (snd kv)));
        try reflexivity; try exact Hp; now apply native_asdict. }
    now rewrite (Hdumps _ Hn).
Qed.

(** *** C4. HTTP exceptions at the global handler. *)

Lemma errors_response_single (e : SupersetError) (status : Z) :
  extra e = None ->
  exists body,
    dumps (VDict [("errors", VList [asdict e])]) = Ok body /\
    errors_response [e] status None
    = Ok (Plain (Response_ body status "application/json; charset=utf-8")).
Proof.
  intros He.
  assert (Hn : native (VDict [("errors", VList [asdict e])]) = true).
  { simpl. now rewrite He. }
  destruct (dumps_native _ Hn) as [body Hb].
  exists body. split; [assumption|].
  unfold json_errors_response. simpl dict_set. simpl map. now rewrite Hb.
Qed.

(** C4: for an [HTTPException] whose code, when it has one, is not 0: if
    the request accepts [text/html], the server is not in debug mode and the
    code is 404 or 500, [show_http_exception] answers with the static asset
    of that code at that status; in every other case it answers with the
    JSON object holding one [GENERIC_BACKEND_ERROR] error of level [ERROR],
    at the status of the exception, or 500 when the exception has none. *)
Theorem show_http_exception_response
    (request : Request) (code : option Z) (description : string) :
  let ex := HTTPException code description in
  let r := show_http_exception float_repr json_iso_dttm_ser allow_nan recursion_limit
             error_msg_from_exception send_file resource_filename config
             request ex in
  (forall c, code = Some c -> c <> 0) ->
  (accepts_text_html request = true -> DEBUG config = false ->
   forall c, code = Some c -> c = 404 \/ c = 500 ->
   r = Ok (WithStatus
             (send_file
                (resource_filename ("static/assets/" ++ string_of_Z c ++ ".html")))
             (Some c))) /\
  (~ (accepts_text_html request = true /\ DEBUG config = false /\
      (code = Some 404 \/ code = Some 500)) ->
   exists body,
     dumps (VDict [("errors",
                    VList [asdict {| message := error_msg_from_exception ex;
                                     error_type := GENERIC_BACKEND_ERROR;
                                     level := ERROR;
                                     extra := None |}])]) = Ok body /\
     r = Ok (Plain (Response_ body
                      (match code with Some c => c | None => 500 end)
                      "application/json; charset=utf-8"))).
Proof.
  intros ex r Hcode. subst r. unfold show_http_exception. split.
  - intros Ha Hd c -> Hc. simpl exn_code. rewrite Ha, Hd. simpl.
    destruct Hc as [-> | ->]; reflexivity.
  - intros Hno.
    assert (Hcond : (accepts_text_html request && negb (DEBUG config)
                     && code_in_404_500 (exn_code ex))%bool = false).
    { destruct (accepts_text_html request); [|reflexivity].
      destruct (DEBUG config); [reflexivity|]. simpl.
      destruct code as [c|]; [|reflexivity]. simpl.
      destruct (c =? 404) eqn:E4.
      { apply Z.eqb_eq in E4. subst c. exfalso. apply Hno. auto. }
      destruct (c =? 500) eqn:E5; [|reflexivity].
      apply Z.eqb_eq in E5. subst c. exfalso. apply Hno. auto. }
    rewrite Hcond.
    assert (Hst : code_or_500 (exn_code ex)
                  = match code with Some c => c | None => 500 end).
    { simpl. destruct code as [c|]; [|reflexivity]. simpl.
      destruct (c =? 0) eqn:E0; [|reflexivity].
      apply Z.eqb_eq in E0. now destruct (Hcode c eq_refl). }
    rewrite Hst. now apply errors_response_single.
Qed.

(** *** C5. Command exceptions at the global handler. *)

(** C5 (as amended): for a [CommandException], [show_command_errors] takes
    the static-HTML fallback exactly when the request accepts [text/html]
    and the server is not in debug mode, whatever the status of the
    exception, and then serves the asset of code 500 at status 500.
    Otherwise it serializes one error with the message and the status of
    the exception, the type [GENERIC_COMMAND_ERROR], the level of that
    status, and as extra the normalized messages of a
    [CommandInvalidError], or the empty mapping. *)
Theorem show_command_errors_response
    (request : Request) (ex : exn)
    (msg : string) (status : Z) (invalid : option dict) :
  command_fields ex = Some (msg, status, invalid) ->
  let r := show_command_errors float_repr json_iso_dttm_ser allow_nan recursion_limit
             send_file resource_filename config request ex in
  let e := {| message := msg;
              error_type := GENERIC_COMMAND_ERROR;
              level := get_error_level_from_status_code status;
              extra := Some (match invalid with Some m => m | None => [] end) |} in
  (accepts_text_html request = true -> DEBUG config = false ->
   r = Ok (WithStatus (send_file (resource_filename "static/assets/500.html"))
             (Some 500))) /\
  (accepts_text_html request = false \/ DEBUG config = true ->
   serves dumps [("errors", VList [asdict e])] status
     "application/json; charset=utf-8" r /\
   (native_error e = true ->
    exists body,
      r = Ok (Plain (Response_ body status "application/json; charset=utf-8")))).
Proof.
  intros Hf r e. subst r. unfold show_command_errors. split.
  - intros -> ->. reflexivity.
  - intros Hno.
    assert (Hcond : (accepts_text_html request && negb (DEBUG config))%bool = false).
    { destruct Hno as [-> | ->]; [reflexivity | apply andb_false_r]. }
    rewrite Hcond, Hf. fold e.
    assert (Hs : serves dumps [("errors", VList [asdict e])] status
                   "application/json; charset=utf-8"
                   (errors_response [e] status None)).
    { reflexivity. }
    split; [exact Hs|].
    intros Hn. rewrite Hs.
    assert (Hnat : native (VDict [("errors", VList [asdict e])]) = true).
    { assert (Hall : forallb native_error [e] = true)
        by (simpl; now rewrite Hn).
      apply native_asdict in Hall.
      change (native (VList (map asdict [e])) && true = true)%bool.
      now rewrite Hall. }
    destruct (dumps_native _ Hnat) as [body ->]. eexists; reflexivity.
Qed.

End ViewFacts.

(** ** The after-request hook *)

Lemma headers_extend_app (m : list (string * string)) (h : Headers) :
  headers_extend m h = (h ++ m)%list.
Proof.
  unfold headers_extend. revert h.
  induction m as [|[k v] m IH]; intros h; simpl.
  - now rewrite app_nil_r.
  - rewrite IH. unfold headers_add. now rewrite <- app_assoc.
Qed.

Lemma headers_set_absent (k v : string) (h : Headers) :
  headers_contains k h = false -> headers_set k v h = (h ++ [(k, v)])%list.
Proof.
  unfold headers_contains.
  induction h as [|[k' v'] h IH]; simpl; [reflexivity|].
  destruct (same_key k k'); simpl; [discriminate|].
  intros H. now rewrite IH.
Qed.

Lemma headers_contains_app (k : string) (h t : Headers) :
  headers_contains k h = true -> headers_contains k (h ++ t)%list = true.
Proof.
  unfold headers_contains. rewrite existsb_app. now intros ->.
Qed.

Lemma headers_get_app (k : string) (h t : Headers) :
  headers_contains k h = true -> headers_get k (h ++ t)%list = headers_get k h.
Proof.
  unfold headers_contains.
  induction h as [|[k' v'] h IH]; simpl; [discriminate|].
  destruct (same_key k k'); simpl; [reflexivity | exact IH].
Qed.

Lemma same_key_refl (k : string) : same_key k k = true.
Proof. apply String.eqb_refl. Qed.

Section DefaultHeaders.

(** One round of the loop over [DEFAULT_HTTP_HEADERS]. *)
Local Abbreviation step :=
  (fun (h : Headers) (kv : string * string) =>
     if headers_contains (fst kv) h then h
     else headers_set (fst kv) (snd kv) h).

(** The loop only appends. *)
Lemma defaults_append (ds : list (string * string)) (h : Headers) :
  exists tail, fold_left step ds h = (h ++ tail)%list.
Proof.
  revert h. induction ds as [|[k v] ds IH]; intros h; simpl.
  - exists []. now rewrite app_nil_r.
  - destruct (headers_contains k h) eqn:E.
    + apply IH.
    + rewrite headers_set_absent by assumption.
      destruct (IH (h ++ [(k, v)])%list) as [tail ->].
      exists ((k, v) :: tail). now rewrite <- app_assoc.
Qed.

Lemma defaults_present (ds : list (string * string)) (h : Headers) k v :
  In (k, v) ds -> headers_contains k (fold_left step ds h) = true.
Proof.
  revert h. induction ds as [|[k' v'] ds IH]; intros h; simpl; [contradiction|].
  intros [[= -> ->] | Hin]; [|now apply IH].
  destruct (defaults_append ds
              (if headers_contains k h then h else headers_set k v h))
    as [tail ->].
  apply headers_contains_app.
  destruct (headers_contains k h) eqn:E; [assumption|].
  rewrite headers_set_absent by assumption.
  unfold headers_contains. rewrite existsb_app. simpl.
  now rewrite same_key_refl, orb_true_r.
Qed.

(** What the loop appends: only defaults whose key the headers did not
    have, and one entry for every such key. *)
Lemma defaults_added (ds : list (string * string)) (h : Headers) :
  exists added,
    fold_left step ds h = (h ++ added)%list /\
    (forall k v, In (k, v) added ->
       In (k, v) ds /\ headers_contains k h = false) /\
    (forall k v, In (k, v) ds -> headers_contains k h = false ->
       headers_contains k added = true).
Proof.
  revert h. induction ds as [|[k v] ds IH]; intros h; simpl.
  - exists []. rewrite app_nil_r. split; [reflexivity|].
    split; intros k v []. 
  - destruct (headers_contains k h) eqn:E.
    + destruct (IH h) as [added [Heq [Hfrom Hall]]].
      exists added. split; [exact Heq|]. split.
      * intros k0 v0 Hin. destruct (Hfrom k0 v0 Hin) as [H1 H2].
        split; [now right | exact H2].
      * intros k0 v0 [[= -> ->] | Hin] Hk0; [congruence|].
        now apply (Hall k0 v0).
    + rewrite headers_set_absent by assumption.
      destruct (IH (h ++ [(k, v)])%list) as [added [Heq [Hfrom Hall]]].
      exists ((k, v) :: added). split; [now rewrite Heq, <- app_assoc|].
      split.
      * intros k0 v0 [[= -> ->] | Hin]; [split; [now left | exact E]|].
        destruct (Hfrom k0 v0 Hin) as [H1 H2]. split; [now right|].
        unfold headers_contains in H2 |- *. rewrite existsb_app in H2.
        now apply orb_false_elim in H2 as [H2 _].
      * intros k0 v0 Hin Hk0.
        unfold headers_contains at 1. cbn [existsb fst].
        destruct (same_key k0 k) eqn:Ek; [reflexivity|]. cbn [orb].
        destruct Hin as [[= -> ->] | Hin];
          [now rewrite same_key_refl in Ek|].
        apply (Hall k0 v0 Hin).
        unfold headers_contains in Hk0 |- *. rewrite existsb_app, Hk0.
        cbn [existsb fst orb]. now rewrite Ek.
Qed.

End DefaultHeaders.

(** C3 (as amended): the hook appends to the headers of the response the
    merge of the two maps, and the merge holds exactly one pair for each
    key of either map: the pair of [HTTP_HEADERS] for a key that map has,
    the pair of [OVERRIDE_HTTP_HEADERS] for a key of that map alone. So on
    a key the two maps set to different values the value of
    [HTTP_HEADERS] is sent and the value of [OVERRIDE_HTTP_HEADERS] is
    dropped: the outgoing response has it only if the response carried it
    before the hook. After the merge the hook appends default headers, and
    only such: every pair it appends is a default whose key the response
    did not have after the merge, and every default whose key the response
    did not have is appended under its key. A key the response has after
    the merge keeps its first value, and every default key is on the
    response at the end. *)
Theorem apply_http_headers_merge (config : Config) (response : Response) :
  dict_wf (OVERRIDE_HTTP_HEADERS config) ->
  dict_wf (HTTP_HEADERS config) ->
  let merged := dict_update (OVERRIDE_HTTP_HEADERS config) (HTTP_HEADERS config) in
  let before := (headers response ++ merged)%list in
  let out := headers (apply_http_headers config response) in
  (forall k v, In (k, v) merged <->
     dict_get k (HTTP_HEADERS config) = Some v \/
     (dict_get k (HTTP_HEADERS config) = None /\
      dict_get k (OVERRIDE_HTTP_HEADERS config) = Some v)) /\
  (exists added,
     out = (before ++ added)%list /\
     (forall k v, In (k, v) added ->
        In (k, v) (DEFAULT_HTTP_HEADERS config) /\
        headers_contains k before = false) /\
     (forall k v, In (k, v) (DEFAULT_HTTP_HEADERS config) ->
        headers_contains k before = false ->
        headers_contains k added = true)) /\
  (forall k vo vc,
     dict_get k (OVERRIDE_HTTP_HEADERS config) = Some vo ->
     dict_get k (HTTP_HEADERS config) = Some vc ->
     vo <> vc ->
     In (k, vc) out /\
     (In (k, vo) out -> In (k, vo) (headers response))) /\
  (forall k v, dict_get k (HTTP_HEADERS config) = Some v ->
     dict_get k merged = Some v /\ In (k, v) out) /\
  (forall k v, dict_get k (HTTP_HEADERS config) = None ->
     dict_get k (OVERRIDE_HTTP_HEADERS config) = Some v ->
     dict_get k merged = Some v /\ In (k, v) out) /\
  (forall k, headers_contains k before = true ->
     headers_get k out = headers_get k before) /\
  (forall k v, In (k, v) (DEFAULT_HTTP_HEADERS config) ->
     headers_contains k out = true).
Proof.
  intros Hwfo Hwf merged before out.
  assert (Hadded : exists added,
             out = (before ++ added)%list /\
             (forall k v, In (k, v) added ->
                In (k, v) (DEFAULT_HTTP_HEADERS config) /\
                headers_contains k before = false) /\
             (forall k v, In (k, v) (DEFAULT_HTTP_HEADERS config) ->
                headers_contains k before = false ->
                headers_contains k added = true)).
  { subst out before merged. unfold apply_http_headers. simpl headers.
    rewrite headers_extend_app. apply defaults_added. }
  assert (Hwfm : dict_wf merged) by (subst merged; now apply dict_update_wf).
  assert (Hget : forall k,
             dict_get k merged
             = match dict_get k (HTTP_HEADERS config) with
               | Some v => Some v
               | None => dict_get k (OVERRIDE_HTTP_HEADERS config)
               end).
  { intros k. subst merged.
    destruct (dict_get k (HTTP_HEADERS config)) as [v|] eqn:E.
    - now apply dict_update_get_right.
    - now apply dict_update_get_skip. }
  assert (Hmerged : forall k v, In (k, v) merged <->
             dict_get k (HTTP_HEADERS config) = Some v \/
             (dict_get k (HTTP_HEADERS config) = None /\
              dict_get k (OVERRIDE_HTTP_HEADERS config) = Some v)).
  { intros k v. split.
    - intros Hin. apply (dict_wf_In_get _ _ _ Hwfm) in Hin.
      rewrite Hget in Hin.
      destruct (dict_get k (HTTP_HEADERS config)); [now left | now right].
    - intros H. apply dict_get_In. rewrite Hget.
      destruct H as [-> | [-> H]]; [reflexivity | exact H]. }
  destruct Hadded as [added [Hout [Hfrom Hall]]].
  assert (Hin : forall k v, In (k, v) merged -> In (k, v) out).
  { intros k v Hg. rewrite Hout. subst before.
    apply in_or_app. left. apply in_or_app. now right. }
  split; [exact Hmerged|].
  split; [exists added; split; [exact Hout | split; [exact Hfrom | exact Hall]]|].
  split; [|split; [|split; [|split]]].
  - intros k vo vc Ho Hc Hne.
    assert (Hvc : In (k, vc) merged) by (apply Hmerged; now left).
    split; [now apply Hin|].
    rewrite Hout. subst before. intros H.
    apply in_app_or in H as [H | H]; [apply in_app_or in H as [H | H]|].
    + exact H.
    + apply Hmerged in H as [H | [H _]]; congruence.
    + destruct (Hfrom k vo H) as [_ Hk]. exfalso.
      unfold headers_contains in Hk. rewrite existsb_app in Hk.
      apply orb_false_elim in Hk as [_ Hk].
      assert (Ht : existsb (fun kv : string * string => same_key k (fst kv)) merged
                   = true).
      { apply existsb_exists. exists (k, vc). split; [exact Hvc|].
        apply same_key_refl. }
      congruence.
  - intros k v Hg. split; [now rewrite Hget, Hg|].
    apply Hin, Hmerged. now left.
  - intros k v Hn Hg. split; [now rewrite Hget, Hn|].
    apply Hin, Hmerged. now right.
  - intros k Hk. rewrite Hout. now apply headers_get_app.
  - intros k v Hd. subst out. unfold apply_http_headers. simpl headers.
    now apply defaults_present with (v := v).
Qed.

(** ** The bootstrap payload *)

Lemma cache_key_eqb_refl (k : cache_key) : cache_key_eqb k k = true.
Proof.
  destruct k as [[u|] l]; unfold cache_key_eqb; simpl;
    now rewrite ?Z.eqb_refl, String.eqb_refl.
Qed.

Lemma cache_key_eqb_eq (k k' : cache_key) : cache_key_eqb k k' = true -> k = k'.
Proof.
  destruct k as [[u|] l], k' as [[u'|] l']; unfold cache_key_eqb; simpl;
    intros H; try discriminate.
  - apply andb_prop in H as [Hu Hl].
    apply Z.eqb_eq in Hu. apply String.eqb_eq in Hl. now subst.
  - apply String.eqb_eq in H. now subst.
Qed.

Lemma cache_key_eqb_neq (k k' : cache_key) : k <> k' -> cache_key_eqb k k' = false.
Proof.
  intros Hne. destruct (cache_key_eqb k k') eqn:E; [|reflexivity].
  now apply cache_key_eqb_eq in E.
Qed.

Lemma cache_find_filter_other (k k0 : cache_key) (c : Cache) :
  cache_key_eqb k0 k = false ->
  cache_find k (filter (fun ke => negb (cache_key_eqb k0 (fst ke))) c)
  = cache_find k c.
Proof.
  intros Hne. induction c as [|[k1 e1] c IH]; simpl; [reflexivity|].
  destruct (cache_key_eqb k0 k1) eqn:E0; simpl.
  - apply cache_key_eqb_eq in E0. subst k1.
    destruct (cache_key_eqb k k0) eqn:E; [|exact IH].
    apply cache_key_eqb_eq in E. subst k0.
    now rewrite cache_key_eqb_refl in Hne.
  - now rewrite IH.
Qed.

(** An entry that is dead stays dead. *)
Lemma cache_get_expired (now now' : Z) (k : cache_key) (c : Cache) :
  now <= now' -> cache_get now k c = None -> cache_get now' k c = None.
Proof.
  unfold cache_get. intros Hle.
  destruct (cache_find k c) as [e|]; [|reflexivity].
  destruct (now <? expires e) eqn:E; [discriminate|].
  apply Z.ltb_ge in E. intros _.
  destruct (now' <? expires e) eqn:E'; [|reflexivity].
  apply Z.ltb_lt in E'. lia.
Qed.

Lemma cache_get_fresh (now now' timeout : Z) (k : cache_key) (v : dict) (c : Cache) :
  now' < now + timeout -> cache_get now' k (cache_set now timeout k v c) = Some v.
Proof.
  intros Hlt. unfold cache_get, cache_set. simpl.
  rewrite cache_key_eqb_refl. simpl.
  destruct (now' <? now + timeout) eqn:E; [reflexivity|].
  apply Z.ltb_ge in E. lia.
Qed.

Lemma cache_get_set_other (now now' timeout : Z) (k k0 : cache_key) (v : dict) (c : Cache) :
  k <> k0 -> cache_get now' k (cache_set now timeout k0 v c) = cache_get now' k c.
Proof.
  intros Hne. unfold cache_get, cache_set. simpl.
  rewrite (cache_key_eqb_neq k k0 Hne).
  rewrite cache_find_filter_other; [reflexivity|].
  apply cache_key_eqb_neq. congruence.
Qed.

(** What a live entry holds under a coherent cache. *)
Lemma coherent_hit (a : Ambient) (now now' : Z) (c : Cache) u l v :
  coherent a now c -> now <= now' ->
  cache_get now' (u, l) c = Some v -> common_bootstrap_data a u l = Ok v.
Proof.
  unfold cache_get. intros Hc Hle.
  destruct (cache_find (u, l) c) as [e|] eqn:Ef; [|discriminate].
  destruct (now' <? expires e) eqn:E; [|discriminate].
  apply Z.ltb_lt in E. intros [= <-].
  apply (Hc (u, l) e Ef). lia.
Qed.

Lemma store_get_keeping (now : Z) (k : cache_key) (c : Cache) :
  store_get KeepingCache now k c = cache_get now k c.
Proof. reflexivity. Qed.

Lemma store_get_expired (backend : CacheBackend) (now now' : Z)
    (k : cache_key) (c : Cache) :
  now <= now' -> store_get backend now k c = None -> store_get backend now' k c = None.
Proof.
  destruct backend; [reflexivity | apply cache_get_expired].
Qed.

Lemma store_get_set_other (backend : CacheBackend) (now now' timeout : Z)
    (k k0 : cache_key) (v : dict) (c : Cache) :
  k <> k0 ->
  store_get backend now' k (store_set backend now timeout k0 v c)
  = store_get backend now' k c.
Proof.
  destruct backend; [reflexivity | apply cache_get_set_other].
Qed.

Lemma coherent_store_hit (backend : CacheBackend) (a : Ambient) (now now' : Z)
    (c : Cache) u l v :
  coherent a now c -> now <= now' ->
  store_get backend now' (u, l) c = Some v -> common_bootstrap_data a u l = Ok v.
Proof.
  destruct backend; [discriminate | apply coherent_hit].
Qed.

(** Under a coherent cache the memoized function returns what the function
    itself returns. *)
Lemma coherent_call (backend : CacheBackend) (a : Ambient) (now now' : Z)
    (c : Cache) u l :
  coherent a now c -> now <= now' ->
  fst (cached_common_bootstrap_data backend a now' c u l)
  = common_bootstrap_data a u l.
Proof.
  intros Hc Hle. unfold cached_common_bootstrap_data, memoize.
  destruct (store_get backend now' (u, l) c) as [v|] eqn:Eg.
  - simpl. symmetry. now apply (coherent_store_hit backend a now now' c).
  - now destruct (common_bootstrap_data a u l).
Qed.

(** C8 (as amended): let the live entries of the cache hold what the
    function returns in the ambient state: none was stored in a state that
    has changed since. Then, whatever the store, two calls of
    [cached_common_bootstrap_data] with the same user id and locale less
    than 60 seconds apart return the same value, and a call in that window
    with another locale returns the value computed for that locale. With a
    store that keeps its entries, when the first call had to compute, the
    second is served from the cache, whatever the ambient state has become
    by then, and leaves the cache as it is. With the null cache nothing is
    kept and both calls compute. *)
Theorem cached_bootstrap_memoized
    (backend : CacheBackend) (a : Ambient) (c : Cache) (now1 now2 : Z)
    (u : option Z) (l l' : string) :
  coherent a now1 c -> now1 <= now2 -> now2 < now1 + 60 -> l <> l' ->
  let first := cached_common_bootstrap_data backend a now1 c u l in
  let second := cached_common_bootstrap_data backend a now2 (snd first) u l in
  let other := cached_common_bootstrap_data backend a now2 (snd first) u l' in
  fst second = fst first /\
  fst other = common_bootstrap_data a u l' /\
  (backend = KeepingCache ->
   cache_get now1 (u, l) c = None ->
   forall v, fst first = Ok v ->
   forall a', cached_common_bootstrap_data backend a' now2 (snd first) u l
              = (Ok v, snd first)) /\
  (backend = NullCache ->
   first = (common_bootstrap_data a u l, c) /\
   second = (common_bootstrap_data a u l, c)).
Proof.
  intros Hc Hle Hlt Hl first second other.
  assert (Hfirst : fst first = common_bootstrap_data a u l)
    by (apply (coherent_call backend a now1 now1 c u l Hc (Z.le_refl _))).
  assert (Hco : coherent a now1 (snd first)).
  { subst first. unfold cached_common_bootstrap_data, memoize.
    destruct (store_get backend now1 (u, l) c) as [v1|]; [exact Hc|].
    destruct (common_bootstrap_data a u l) as [v|e] eqn:Ev; [|exact Hc].
    destruct backend; [exact Hc|]. simpl.
    intros k e Hfind Hlive. unfold cache_set in Hfind. simpl in Hfind.
    destruct (cache_key_eqb k (u, l)) eqn:Ek.
    - apply cache_key_eqb_eq in Ek. subst k. injection Hfind as <-. exact Ev.
    - rewrite cache_find_filter_other in Hfind.
      + now apply (Hc k e).
      + destruct (cache_key_eqb (u, l) k) eqn:Ek'; [|reflexivity].
        apply cache_key_eqb_eq in Ek'. subst k.
        now rewrite cache_key_eqb_refl in Ek. }
  split; [|split; [|split]].
  - subst second. rewrite Hfirst.
    apply (coherent_call backend a now1 now2 (snd first) u l Hco Hle).
  - subst other.
    apply (coherent_call backend a now1 now2 (snd first) u l' Hco Hle).
  - intros -> Hmiss v Hv a'. subst first.
    unfold cached_common_bootstrap_data, memoize, store_get, store_set in *.
    rewrite Hmiss in *.
    destruct (common_bootstrap_data a u l) as [v0|e]; [|discriminate Hv].
    simpl in Hv. injection Hv as ->. simpl.
    now rewrite cache_get_fresh by assumption.
  - intros ->. subst first second.
    unfold cached_common_bootstrap_data, memoize. simpl.
    destruct (common_bootstrap_data a u l); simpl; split; reflexivity.
Qed.

Lemma cached_call_returns (backend : CacheBackend) (a : Ambient) (now : Z)
    (c : Cache) u l v :
  common_bootstrap_data a u l = Ok v ->
  exists v' c', cached_common_bootstrap_data backend a now c u l = (Ok v', c').
Proof.
  intros Hv. unfold cached_common_bootstrap_data, memoize.
  destruct (store_get backend now (u, l) c) as [v'|].
  - now exists v', c.
  - rewrite Hv. eexists; eexists; reflexivity.
Qed.

(** C9 (as amended): in one request context, with a configuration under
    which the cached part is computed, the first call of
    [common_bootstrap_payload] returns the pending flash messages and takes
    them out of the session; the second call of the same request returns
    the same messages again, since they are kept on the request context;
    the list is empty from the next request on. *)
Theorem flash_messages_kept_for_the_request
    (backend : CacheBackend) (a : Ambient) (now1 now2 now3 : Z)
    (c : Cache) (rc : RequestContext) (fl : flashes) (v : dict) :
  common_bootstrap_data a (current_user_id rc) (current_locale rc) = Ok v ->
  ctx_flashes rc = None ->
  session_flashes rc = Some fl ->
  exists p1 c1 rc1 p2 c2 rc2 p3 c3 rc3,
    common_bootstrap_payload backend a now1 c rc = (Ok p1, c1, rc1) /\
    dict_get "flash_messages" p1 = Some (flashes_value fl) /\
    session_flashes rc1 = None /\
    common_bootstrap_payload backend a now2 c1 rc1 = (Ok p2, c2, rc2) /\
    dict_get "flash_messages" p2 = Some (flashes_value fl) /\
    common_bootstrap_payload backend a now3 c2 (next_request rc2)
    = (Ok p3, c3, rc3) /\
    dict_get "flash_messages" p3 = Some (flashes_value []).
Proof.
  intros Hv Hctx Hses.
  destruct (cached_call_returns backend a now1 c _ _ v Hv) as [v1 [c1 H1]].
  destruct (cached_call_returns backend a now2 c1 _ _ v Hv) as [v2 [c2 H2]].
  destruct (cached_call_returns backend a now3 c2 _ _ v Hv) as [v3 [c3 H3]].
  set (rc1 := {| session_flashes := None;
                 ctx_flashes := Some fl;
                 current_user_id := current_user_id rc;
                 current_locale := current_locale rc |}).
  exists (dict_set "flash_messages" (flashes_value fl) v1), c1, rc1.
  exists (dict_set "flash_messages" (flashes_value fl) v2), c2, rc1.
  exists (dict_set "flash_messages" (flashes_value []) v3), c3.
  exists {| session_flashes := None;
            ctx_flashes := Some [];
            current_user_id := current_user_id rc;
            current_locale := current_locale rc |}.
  repeat split; try apply dict_get_set_same.
  - unfold common_bootstrap_payload, get_flashed_messages.
    now rewrite H1, Hctx, Hses.
  - unfold common_bootstrap_payload, get_flashed_messages. simpl.
    now rewrite H2.
  - unfold common_bootstrap_payload, get_flashed_messages. simpl.
    now rewrite H3.
Qed.

(* ================================================================== *)
(** * The statements at concrete inputs *)

Local Abbreviation sample_dumps :=
  (json_dumps Sample.float_repr Sample.json_iso_dttm_ser true 0).
Local Abbreviation sample_error_response :=
  (json_error_response Sample.float_repr Sample.json_iso_dttm_ser true 0).
Local Abbreviation sample_errors_response :=
  (json_errors_response Sample.float_repr Sample.json_iso_dttm_ser true 0).
Local Abbreviation sample_handle_api_exception :=
  (handle_api_exception Sample.float_repr Sample.json_iso_dttm_ser true 0
     Sample.error_msg_from_exception).
Local Abbreviation sample_api :=
  (api Sample.float_repr Sample.json_iso_dttm_ser true 0 Sample.format_exc).
Local Abbreviation sample_show_http_exception :=
  (show_http_exception Sample.float_repr Sample.json_iso_dttm_ser true 0
     Sample.error_msg_from_exception Sample.send_file Sample.resource_filename).
Local Abbreviation sample_show_command_errors :=
  (show_command_errors Sample.float_repr Sample.json_iso_dttm_ser true 0
     Sample.send_file Sample.resource_filename).

(** ** C1 *)

(** The claim of C1 fails on a duplicate-key [IntegrityError]: the status is
    422, but the body has the member ["error"] and no member ["errors"]. *)
Lemma storage_error_body_has_no_errors_list :
  exists resp,
    sample_handle_api_exception (Raise (IntegrityError "duplicate key"))
    = Ok (Plain resp) /\
    status_code resp = 422 /\
    sample_dumps (VDict [("error", VStr "duplicate key")]) = Ok (data resp) /\
    has_member "error" (data resp) = true /\
    has_member "errors" (data resp) = false.
Proof.
  eexists. split; [reflexivity|]. repeat split.
Qed.

Lemma storage_error_is_free_text_422_witness :
  storage_exception (DataError "value too long") = true /\
  exists body,
    sample_dumps (VDict [("error", VStr "value too long")]) = Ok body /\
    sample_handle_api_exception (Raise (DataError "value too long"))
    = Ok (Plain (Response_ body 422 "application/json")).
Proof.
  split; [reflexivity|].
  apply (storage_error_is_free_text_422
           Sample.float_repr Sample.json_iso_dttm_ser true 0
           Sample.error_msg_from_exception (DataError "value too long")).
  reflexivity.
Defined.

(** ** C2 *)

(** The claim of C2 fails on a payload holding [NaN] and [Infinity]: the
    serialization succeeds, and both are written as [null]; neither
    literal occurs in the body. *)
Lemma nan_and_infinity_are_replaced_by_null :
  exists resp,
    sample_error_response None 500
      (Some [("ratio", VFloat S754_nan); ("peak", VFloat (S754_infinity false))])
      None
    = Ok (Plain resp) /\
    data resp = encode_dict [ encode_basestring_ascii "ratio" ++ ": null";
                              encode_basestring_ascii "peak" ++ ": null" ] /\
    occurs "NaN" (data resp) = false /\
    occurs "Infinity" (data resp) = false.
Proof.
  eexists. split; [reflexivity|]. repeat split.
Qed.

Lemma builders_write_out_of_range_floats_as_null_witness :
  native Sample.nested_payload = true /\
  out_of_range_float (S754_infinity true) = true /\
  forallb out_of_range_float [S754_nan; S754_infinity false] = true /\
  forallb native_error [Sample.error_with_nan] = true /\
  sample_dumps Sample.nested_payload
  = Ok (encode_dict
          [ encode_basestring_ascii "series" ++ ": "
              ++ encode_list ["null"; "2"; "null"];
            encode_basestring_ascii "meta" ++ ": "
              ++ encode_dict [encode_basestring_ascii "low" ++ ": null"] ]) /\
  iterencode Sample.float_repr Sample.json_iso_dttm_ser false false 1
    (nulled Sample.nested_payload)
  = sample_dumps Sample.nested_payload /\
  sample_dumps (VDict [("low", VFloat (S754_infinity true))])
  = Ok (encode_dict [encode_basestring_ascii "low" ++ ": null"]) /\
  sample_dumps (VList [VFloat S754_nan; VFloat (S754_infinity false)])
  = Ok (encode_list ["null"; "null"]) /\
  sample_error_response (Some "m") 500
    (Some [("ratio", VList [VFloat S754_nan])]) None
  = Ok (Plain (Response_
                 (encode_dict [encode_basestring_ascii "ratio" ++ ": "
                                 ++ encode_list ["null"]])
                 500 "application/json")) /\
  sample_errors_response [Sample.error_with_nan] 500 None
  = Ok (Plain (Response_
                 (render Sample.float_repr
                    (VDict [("errors", VList [asdict Sample.error_with_nan])]))
                 500 "application/json; charset=utf-8")).
Proof.
  pose proof (builders_write_out_of_range_floats_as_null
                Sample.float_repr Sample.json_iso_dttm_ser true 0)
    as [H1 [H2 [H3 [H4 H5]]]].
  split; [reflexivity|]. split; [reflexivity|].
  split; [reflexivity|]. split; [reflexivity|].
  split; [exact (proj1 (H1 Sample.nested_payload eq_refl))|].
  split; [exact (proj2 (H1 Sample.nested_payload eq_refl))|].
  split; [exact (H2 "low" (S754_infinity true) eq_refl)|].
  split; [exact (H3 [S754_nan; S754_infinity false] eq_refl)|].
  split.
  - exact (H4 (Some "m") 500 (Some [("ratio", VList [VFloat S754_nan])]) None
             eq_refl).
  - exact (H5 [Sample.error_with_nan] 500 None eq_refl eq_refl).
Defined.

(** ** C3 *)

(** The claim of C3 fails when both maps set [X-Frame-Options]: the
    response carries the value of [HTTP_HEADERS], not the one of
    [OVERRIDE_HTTP_HEADERS]. *)
Lemma http_headers_value_wins_over_override :
  dict_get "X-Frame-Options" (OVERRIDE_HTTP_HEADERS Sample.production) = Some "DENY" /\
  dict_get "X-Frame-Options" (HTTP_HEADERS Sample.production) = Some "SAMEORIGIN" /\
  headers (apply_http_headers Sample.production (Response_ "{}" 200 "application/json"))
  = [ ("Content-Type", "application/json");
      ("Content-Length", "2");
      ("X-Frame-Options", "SAMEORIGIN");
      ("Cache-Control", "no-store") ] /\
  ~ In ("X-Frame-Options", "DENY")
      (headers (apply_http_headers Sample.production
                  (Response_ "{}" 200 "application/json"))).
Proof.
  repeat split.
  simpl. intros H.
  repeat (destruct H as [H | H]; [discriminate H|]). exact H.
Qed.

Lemma apply_http_headers_merge_witness :
  dict_wf (OVERRIDE_HTTP_HEADERS Sample.production) /\
  dict_wf (HTTP_HEADERS Sample.production) /\
  "DENY" <> "SAMEORIGIN" /\
  In ("X-Frame-Options", "SAMEORIGIN")
     (headers (apply_http_headers Sample.production
                 (Response_ "{}" 200 "application/json"))) /\
  (In ("X-Frame-Options", "DENY")
      (headers (apply_http_headers Sample.production
                  (Response_ "{}" 200 "application/json"))) ->
   In ("X-Frame-Options", "DENY")
      (headers (Response_ "{}" 200 "application/json"))) /\
  headers_contains "Cache-Control"
    (headers (apply_http_headers Sample.production
                (Response_ "{}" 200 "application/json"))) = true.
Proof.
  assert (Hwfo : dict_wf (OVERRIDE_HTTP_HEADERS Sample.production)).
  { unfold dict_wf. simpl. constructor; [intros [] | constructor]. }
  assert (Hwf : dict_wf (HTTP_HEADERS Sample.production)).
  { unfold dict_wf. simpl. constructor; [intros [] | constructor]. }
  assert (Hne : "DENY" <> "SAMEORIGIN") by discriminate.
  split; [exact Hwfo|]. split; [exact Hwf|]. split; [exact Hne|].
  destruct (apply_http_headers_merge Sample.production
              (Response_ "{}" 200 "application/json") Hwfo Hwf)
    as [_ [_ [H3 [_ [_ [_ H7]]]]]].
  split; [|split].
  - exact (proj1 (H3 "X-Frame-Options" "DENY" "SAMEORIGIN" eq_refl eq_refl Hne)).
  - exact (proj2 (H3 "X-Frame-Options" "DENY" "SAMEORIGIN" eq_refl eq_refl Hne)).
  - apply (H7 "Cache-Control" "no-store"). simpl. now left.
Defined.

(** ** C4 *)

Lemma show_http_exception_response_witness :
  (forall c, Some 404 = Some c -> c <> 0) /\
  (forall c, Some 405 = Some c -> c <> 0) /\
  sample_show_http_exception Sample.production Sample.browser
    (HTTPException (Some 404) "Not Found")
  = Ok (WithStatus
          (Sample.send_file (Sample.resource_filename "static/assets/404.html"))
          (Some 404)) /\
  exists body,
    sample_show_http_exception Sample.production Sample.api_client
      (HTTPException (Some 405) "Method Not Allowed")
    = Ok (Plain (Response_ body 405 "application/json; charset=utf-8")).
Proof.
  assert (H404 : forall c, Some 404 = Some c -> c <> 0)
    by (intros c [= <-]; lia).
  assert (H405 : forall c, Some 405 = Some c -> c <> 0)
    by (intros c [= <-]; lia).
  split; [exact H404|]. split; [exact H405|]. split.
  - exact (proj1 (show_http_exception_response
                    Sample.float_repr Sample.json_iso_dttm_ser true 0
                    Sample.error_msg_from_exception Sample.send_file
                    Sample.resource_filename Sample.production
                    Sample.browser (Some 404) "Not Found" H404)
             eq_refl eq_refl 404 eq_refl (or_introl eq_refl)).
  - destruct (proj2 (show_http_exception_response
                       Sample.float_repr Sample.json_iso_dttm_ser true 0
                       Sample.error_msg_from_exception Sample.send_file
                       Sample.resource_filename Sample.production
                       Sample.api_client (Some 405) "Method Not Allowed" H405))
      as [body [_ Hr]].
    + intros [Ha _]. discriminate Ha.
    + exists body. exact Hr.
Defined.

(** ** C5 *)

(** The claim of C5 fails on a [CommandInvalidError] of status 422 from a
    browser outside debug mode: the fallback is taken although the status
    is not 500, and the client gets the asset of code 500 at status 500. *)
Lemma command_error_of_status_422_gets_the_500_page :
  DEBUG Sample.production = false /\
  command_fields (CommandInvalidError "Invalid" 422 [("name", VList [VStr "required"])])
  = Some ("Invalid", 422, Some [("name", VList [VStr "required"])]) /\
  sample_show_command_errors Sample.production Sample.browser
    (CommandInvalidError "Invalid" 422 [("name", VList [VStr "required"])])
  = Ok (WithStatus
          (Sample.send_file (Sample.resource_filename "static/assets/500.html"))
          (Some 500)).
Proof. repeat split. Qed.

Lemma show_command_errors_response_witness :
  command_fields (CommandInvalidError "Invalid" 422 [("name", VList [VStr "required"])])
  = Some ("Invalid", 422, Some [("name", VList [VStr "required"])]) /\
  sample_show_command_errors Sample.production Sample.browser
    (CommandInvalidError "Invalid" 422 [("name", VList [VStr "required"])])
  = Ok (WithStatus
          (Sample.send_file (Sample.resource_filename "static/assets/500.html"))
          (Some 500)) /\
  exists body,
    sample_show_command_errors Sample.production Sample.api_client
      (CommandInvalidError "Invalid" 422 [("name", VList [VStr "required"])])
    = Ok (Plain (Response_ body 422 "application/json; charset=utf-8")).
Proof.
  split; [reflexivity|]. split.
  - apply (proj1 (show_command_errors_response
                    Sample.float_repr Sample.json_iso_dttm_ser true 0
                    Sample.send_file Sample.resource_filename Sample.production
                    Sample.browser
                    (CommandInvalidError "Invalid" 422
                       [("name", VList [VStr "required"])])
                    "Invalid" 422 (Some [("name", VList [VStr "required"])])
                    eq_refl)); reflexivity.
  - apply (proj2 (show_command_errors_response
                    Sample.float_repr Sample.json_iso_dttm_ser true 0
                    Sample.send_file Sample.resource_filename Sample.production
                    Sample.api_client
                    (CommandInvalidError "Invalid" 422
                       [("name", VList [VStr "required"])])
                    "Invalid" 422 (Some [("name", VList [VStr "required"])])
                    eq_refl));
      [now left | reflexivity].
Defined.

(** ** C6 *)

(** The claim of C6 fails when [SHOW_STACKTRACE] is on: the status is 401
    and the body has the member ["error"], but the message is the formatted
    stack trace. *)
Lemma missing_authorization_exposes_the_stack_trace :
  exists resp,
    sample_api Sample.show_traces
      (Raise (NoAuthorizationError "Missing Authorization Header"))
    = Ok (Plain resp) /\
    status_code resp = 401 /\
    sample_dumps
      (VDict [("error",
               VStr (Sample.format_exc
                       (NoAuthorizationError "Missing Authorization Header")))])
    = Ok (data resp) /\
    occurs "Traceback (most recent call last)" (data resp) = true.
Proof.
  eexists. split; [reflexivity|]. repeat split.
Qed.

(** ** C7 *)

(** The claim of C7 fails when an extra mapping is passed: the body is the
    extra mapping alone and the message is nowhere in it. *)
Lemma message_is_dropped_when_extra_is_given :
  exists resp,
    sample_error_response (Some "boom") 400 (Some [("detail", VStr "x")]) None
    = Ok (Plain resp) /\
    sample_dumps (VDict [("detail", VStr "x")]) = Ok (data resp) /\
    has_member "detail" (data resp) = true /\
    has_member "error" (data resp) = false /\
    occurs "boom" (data resp) = false.
Proof.
  eexists. split; [reflexivity|]. repeat split.
Qed.

Lemma json_error_response_body_witness :
  truthy_dict None = false /\
  "https://docs" <> "" /\
  [("detail", VStr "x")] <> [] /\
  serves sample_dumps [("error", VStr "boom"); ("link", VStr "https://docs")]
    500 "application/json"
    (sample_error_response (Some "boom") 500 None (Some "https://docs")) /\
  serves sample_dumps [("detail", VStr "x"); ("link", VStr "https://docs")]
    400 "application/json"
    (sample_error_response (Some "boom") 400 (Some [("detail", VStr "x")])
       (Some "https://docs")).
Proof.
  split; [reflexivity|]. split; [discriminate|]. split; [discriminate|].
  split.
  - destruct (json_error_response_body
                Sample.float_repr Sample.json_iso_dttm_ser true 0
                (Some "boom") 500 None (Some "https://docs"))
      as [_ [H2 _]].
    apply (H2 eq_refl "https://docs" eq_refl). discriminate.
  - destruct (json_error_response_body
                Sample.float_repr Sample.json_iso_dttm_ser true 0
                (Some "boom") 400 (Some [("detail", VStr "x")])
                (Some "https://docs"))
      as [_ [_ [_ [H4 _]]]].
    apply (H4 [("detail", VStr "x")] "https://docs" eq_refl); 
      [discriminate | reflexivity | discriminate].
Defined.

(** ** C8 *)

(** The claim of C8 fails with a store that keeps its entries, on an entry
    stored before the configuration changed: the row limit is 50000 when the
    value is stored at time 0 and 100000 from then on; a call at time 50 is
    served the stored value, the call 20 seconds later finds the entry
    expired and computes, and the two values differ though nothing changed
    between the two calls. *)
Lemma stale_entry_expires_between_two_calls :
  50 <= 70 /\ 70 < 50 + 60 /\
  (let stored :=
     snd (cached_common_bootstrap_data KeepingCache MoreSample.earlier_ambient
            0 [] (Some 1) "en") in
   let first := cached_common_bootstrap_data KeepingCache Sample.ambient
                  50 stored (Some 1) "en" in
   let second := cached_common_bootstrap_data KeepingCache Sample.ambient
                   70 (snd first) (Some 1) "en" in
   fst first = common_bootstrap_data MoreSample.earlier_ambient (Some 1) "en" /\
   fst second = common_bootstrap_data Sample.ambient (Some 1) "en" /\
   fst second <> fst first).
Proof.
  split; [lia|]. split; [lia|]. cbv zeta.
  split; [reflexivity|]. split; [reflexivity|].
  vm_compute. discriminate.
Qed.

Lemma cached_bootstrap_memoized_witness :
  coherent Sample.ambient 0 [] /\ 0 <= 10 /\ 10 < 0 + 60 /\ "en" <> "fr" /\
  KeepingCache = KeepingCache /\
  cache_get 0 (Some 1, "en") [] = None /\
  (let first := cached_common_bootstrap_data KeepingCache Sample.ambient
                  0 [] (Some 1) "en" in
   let second := cached_common_bootstrap_data KeepingCache Sample.ambient
                   10 (snd first) (Some 1) "en" in
   let other := cached_common_bootstrap_data KeepingCache Sample.ambient
                  10 (snd first) (Some 1) "fr" in
   fst second = fst first /\
   fst other = common_bootstrap_data Sample.ambient (Some 1) "fr" /\
   (forall v, fst first = Ok v ->
    cached_common_bootstrap_data KeepingCache MoreSample.earlier_ambient
      10 (snd first) (Some 1) "en"
    = (Ok v, snd first))).
Proof.
  assert (Hc : coherent Sample.ambient 0 []) by (intros k e H; discriminate H).
  assert (Hl : "en" <> "fr") by discriminate.
  split; [exact Hc|]. split; [lia|]. split; [lia|]. split; [exact Hl|].
  split; [reflexivity|]. split; [reflexivity|].
  destruct (cached_bootstrap_memoized KeepingCache Sample.ambient [] 0 10
              (Some 1) "en" "fr" Hc ltac:(lia) ltac:(lia) Hl)
    as [H1 [H2 [H3 _]]].
  split; [exact H1|]. split; [exact H2|].
  intros v Hv. exact (H3 eq_refl eq_refl v Hv MoreSample.earlier_ambient).
Defined.

(** ** C9 *)

(** The claim of C9 fails on a request with one pending message: the second
    call of the same request returns that message again, not the empty
    list. *)
Lemma second_call_returns_the_flashes_again :
  exists p1 c1 rc1 p2 c2 rc2,
    common_bootstrap_payload KeepingCache Sample.ambient 0 []
      Sample.request_with_flash
    = (Ok p1, c1, rc1) /\
    common_bootstrap_payload KeepingCache Sample.ambient 1 c1 rc1
    = (Ok p2, c2, rc2) /\
    dict_get "flash_messages" p1
    = Some (VList [VList [VStr "info"; VStr "Dashboard saved"]]) /\
    dict_get "flash_messages" p2
    = Some (VList [VList [VStr "info"; VStr "Dashboard saved"]]) /\
    dict_get "flash_messages" p2 <> Some (VList []).
Proof.
  do 6 eexists. split; [reflexivity|]. split; [reflexivity|].
  split; [reflexivity|]. split; [reflexivity|]. discriminate.
Qed.

Lemma flash_messages_kept_for_the_request_witness :
  ctx_flashes Sample.request_with_flash = None /\
  session_flashes Sample.request_with_flash = Some [("info", "Dashboard saved")] /\
  exists p1 c1 rc1 p2 c2 rc2 p3 c3 rc3,
    common_bootstrap_payload NullCache Sample.ambient 0 []
      Sample.request_with_flash
    = (Ok p1, c1, rc1) /\
    dict_get "flash_messages" p1
    = Some (flashes_value [("info", "Dashboard saved")]) /\
    session_flashes rc1 = None /\
    common_bootstrap_payload NullCache Sample.ambient 1 c1 rc1
    = (Ok p2, c2, rc2) /\
    dict_get "flash_messages" p2
    = Some (flashes_value [("info", "Dashboard saved")]) /\
    common_bootstrap_payload NullCache Sample.ambient 2 c2 (next_request rc2)
    = (Ok p3, c3, rc3) /\
    dict_get "flash_messages" p3 = Some (flashes_value []).
Proof.
  split; [reflexivity|]. split; [reflexivity|].
  eapply (flash_messages_kept_for_the_request
            NullCache Sample.ambient 0 1 2 [] Sample.request_with_flash);
    reflexivity.
Defined.

(* ================================================================== *)
(** * Further properties of the views *)

Section MoreViewFacts.

Variable float_repr : spec_float -> string.
Variable json_iso_dttm_ser : value -> result value.
Variable allow_nan : bool.
Variable recursion_limit : nat.
Variable error_msg_from_exception : exn -> string.
Variable format_exc : exn -> string.
Variable send_file : string -> Response.
Variable resource_filename : string -> string.
Variable config : Config.
Variable redirect : string -> Response.
Variable login_url : string.

Local Abbreviation dumps :=
  (json_dumps float_repr json_iso_dttm_ser allow_nan recursion_limit).
Local Abbreviation error_response :=
  (json_error_response float_repr json_iso_dttm_ser allow_nan recursion_limit).
Local Abbreviation errors_response :=
  (json_errors_response float_repr json_iso_dttm_ser allow_nan recursion_limit).
Local Abbreviation api_ :=
  (api float_repr json_iso_dttm_ser allow_nan recursion_limit format_exc config).
Local Abbreviation handle_api_exception_ :=
  (handle_api_exception float_repr json_iso_dttm_ser allow_nan recursion_limit
     error_msg_from_exception).
Local Abbreviation errorhandler_ :=
  (errorhandler float_repr json_iso_dttm_ser allow_nan recursion_limit
     error_msg_from_exception send_file resource_filename config
     redirect login_url).

(** What [api] does with an exception, in one equation. *)
Lemma api_raise (ex : exn) :
  api_ (Raise ex) =
  error_response (Some (get_error_msg format_exc config ex))
    (if is_no_authorization ex then 401 else 500) None None.
Proof. destruct ex; reflexivity. Qed.

(** What [handle_api_exception] does with an exception that carries no
    structured errors, in one equation. *)
Lemma handle_api_exception_free_text (ex : exn) :
  carries_errors ex = false ->
  handle_api_exception_ (Raise ex) =
  error_response (Some (error_msg_from_exception ex))
    (match ex with
     | SupersetException _ status
     | CommandException _ status
     | CommandInvalidError _ status _ => status
     | HTTPException (Some c) _ | CSRFError (Some c) _ => c
     | HTTPException None _ | CSRFError None _ => 200
     | IntegrityError _ | DatabaseError _ | DataError _ => 422
     | _ => 500
     end) None None.
Proof.
  destruct ex as [| | | | | | |[c|] ?|[c|] ?| | | | | | | | |];
    try discriminate; reflexivity.
Qed.

Lemma api_raise_answers (ex : exn) :
  exists body,
    dumps (VDict [("error", VStr (get_error_msg format_exc config ex))]) = Ok body /\
    api_ (Raise ex)
    = Ok (Plain (Response_ body (if is_no_authorization ex then 401 else 500)
                   "application/json")).
Proof.
  rewrite api_raise.
  apply (error_response_plain float_repr json_iso_dttm_ser allow_nan recursion_limit).
Qed.

Lemma free_text_answers (ex : exn) :
  carries_errors ex = false ->
  exists body,
    dumps (VDict [("error", VStr (error_msg_from_exception ex))]) = Ok body /\
    handle_api_exception_ (Raise ex)
    = Ok (Plain (Response_ body
                   (match ex with
                    | SupersetException _ status
                    | CommandException _ status
                    | CommandInvalidError _ status _ => status
                    | HTTPException (Some c) _ | CSRFError (Some c) _ => c
                    | HTTPException None _ | CSRFError None _ => 200
                    | IntegrityError _ | DatabaseError _ | DataError _ => 422
                    | _ => 500
                    end)
                   "application/json")).
Proof.
  intros Hc. rewrite (handle_api_exception_free_text ex Hc).
  apply (error_response_plain float_repr json_iso_dttm_ser allow_nan recursion_limit).
Qed.

Lemma unexpected_answers_500 (request : Request) (ex : exn) :
  exists r,
    show_unexpected_exception float_repr json_iso_dttm_ser allow_nan
      recursion_limit error_msg_from_exception send_file resource_filename
      config request ex = Ok r /\
    final_status r = 500.
Proof.
  unfold show_unexpected_exception.
  destruct (accepts_text_html request && negb (DEBUG config))%bool.
  - eexists. split; reflexivity.
  - destruct (errors_response_single float_repr json_iso_dttm_ser allow_nan
                recursion_limit
                {| message := error_msg_from_exception ex;
                   error_type := GENERIC_BACKEND_ERROR;
                   level := ERROR; extra := None |} 500 eq_refl)
      as [body [_ Hr]].
    rewrite Hr. eexists. split; reflexivity.
Qed.

(** X1: [api] answers whatever the wrapped view does: the response of the
    view as it is, and for an exception the object [{"error": message}] at
    status 401 for a [NoAuthorizationError] and 500 for every other
    exception. It never raises. *)
Theorem api_always_answers :
  (forall r, api_ (Ok r) = Ok r) /\
  (forall ex, exists body,
     dumps (VDict [("error", VStr (get_error_msg format_exc config ex))]) = Ok body /\
     api_ (Raise ex)
     = Ok (Plain (Response_ body (if is_no_authorization ex then 401 else 500)
                    "application/json"))).
Proof.
  split.
  - intros r. reflexivity.
  - intros ex. rewrite api_raise.
    destruct (dumps_error_object float_repr json_iso_dttm_ser allow_nan
                recursion_limit (get_error_msg format_exc config ex))
      as [body Hb].
    exists body. split; [exact Hb|].
    unfold json_error_response. simpl format_str. now rewrite Hb.
Qed.

(** X2: with [SHOW_STACKTRACE] off, what [api] answers to an exception
    depends on nothing but whether it is a [NoAuthorizationError]: two
    exceptions of the same kind get the same response, whatever they carry
    and whatever their stack trace is. *)
Theorem api_hides_exception_details (format_exc' : exn -> string) (ex ex' : exn) :
  SHOW_STACKTRACE config = false ->
  is_no_authorization ex = is_no_authorization ex' ->
  api_ (Raise ex)
  = api float_repr json_iso_dttm_ser allow_nan recursion_limit format_exc' config
      (Raise ex').
Proof.
  intros Hshow Hkind.
  rewrite api_raise.
  assert (Hr : api float_repr json_iso_dttm_ser allow_nan recursion_limit
                 format_exc' config (Raise ex')
               = error_response (Some (get_error_msg format_exc' config ex'))
                   (if is_no_authorization ex' then 401 else 500) None None)
    by (destruct ex'; reflexivity).
  rewrite Hr. unfold get_error_msg. now rewrite Hshow, Hkind.
Qed.

(** X3: under [api], [handle_api_exception] and the view, stacked in that
    order, always answer; and a [NoAuthorizationError] of the view is
    caught by the inner decorator, which answers with status 500 and the
    message of the exception: the 401 of [api] is not reached. *)
Theorem api_over_handle_api_exception :
  (forall f, exists r, api_ (handle_api_exception_ f) = Ok r) /\
  (forall m, exists body,
     dumps (VDict [("error",
                    VStr (error_msg_from_exception (NoAuthorizationError m)))])
     = Ok body /\
     api_ (handle_api_exception_ (Raise (NoAuthorizationError m)))
     = Ok (Plain (Response_ body 500 "application/json"))).
Proof.
  split.
  - intros f. destruct (handle_api_exception_ f) as [r|ex].
    + now exists r.
    + destruct (api_raise_answers ex) as [body [_ Hr]].
      eexists. exact Hr.
  - intros m.
    destruct (error_response_plain float_repr json_iso_dttm_ser allow_nan
                recursion_limit
                (error_msg_from_exception (NoAuthorizationError m)) 500)
      as [body [Hb Hr]].
    exists body. split; [exact Hb|].
    change (handle_api_exception_ (Raise (NoAuthorizationError m)))
      with (error_response
              (Some (error_msg_from_exception (NoAuthorizationError m)))
              500 None None).
    rewrite Hr. reflexivity.
Qed.

(** X4: to an exception that carries no structured errors
    [handle_api_exception] always answers, with the object
    [{"error": message}] and the message [error_msg_from_exception] gives;
    the status is the one of a [SupersetException] or [CommandException],
    the code of an [HTTPException] and 200 when it has no code, 422 for
    the storage exceptions and 500 for every other exception. *)
Theorem handle_api_exception_answers_free_text (ex : exn) :
  carries_errors ex = false ->
  exists body,
    dumps (VDict [("error", VStr (error_msg_from_exception ex))]) = Ok body /\
    handle_api_exception_ (Raise ex)
    = Ok (Plain (Response_ body
                   (match ex with
                    | SupersetException _ status
                    | CommandException _ status
                    | CommandInvalidError _ status _ => status
                    | HTTPException (Some c) _ | CSRFError (Some c) _ => c
                    | HTTPException None _ | CSRFError None _ => 200
                    | IntegrityError _ | DatabaseError _ | DataError _ => 422
                    | _ => 500
                    end)
                   "application/json")).
Proof.
  intros Hc. rewrite (handle_api_exception_free_text ex Hc).
  destruct (dumps_error_object float_repr json_iso_dttm_ser allow_nan
              recursion_limit (error_msg_from_exception ex))
    as [body Hb].
  exists body. split; [exact Hb|].
  unfold json_error_response. simpl format_str. now rewrite Hb.
Qed.

(** X5: what [json_errors_response] serializes has under ["errors"] the
    errors it was given, one entry each and in their order, also when the
    extra mapping has an ["errors"] member of its own; every other member
    of the extra mapping is kept. *)
Theorem json_errors_response_payload
    (errors : list SupersetError) (status : Z) (payload : option dict) :
  exists p,
    serves dumps p status "application/json; charset=utf-8"
      (errors_response errors status payload) /\
    (exists entries,
       dict_get "errors" p = Some (VList entries) /\
       entries = map asdict errors /\
       List.length entries = List.length errors) /\
    (forall k, k <> "errors" ->
       dict_get k p = match payload with
                      | Some d => dict_get k d
                      | None => None
                      end).
Proof.
  set (base := match payload with Some (kv :: d) => kv :: d | _ => [] end).
  exists (dict_set "errors" (VList (map asdict errors)) base).
  split; [reflexivity|]. split.
  - exists (map asdict errors).
    split; [apply dict_get_set_same|]. split; [reflexivity | apply length_map].
  - intros k Hk. rewrite dict_get_set_other by assumption.
    subst base. destruct payload as [[|kv d]|]; reflexivity.
Qed.

(** X6: [show_unexpected_exception] always answers, and the status the
    client sees is 500 on both of its paths. *)
Theorem show_unexpected_exception_is_500 (request : Request) (ex : exn) :
  exists r,
    show_unexpected_exception float_repr json_iso_dttm_ser allow_nan
      recursion_limit error_msg_from_exception send_file resource_filename
      config request ex = Ok r /\
    final_status r = 500.
Proof.
  unfold show_unexpected_exception.
  destruct (accepts_text_html request && negb (DEBUG config))%bool eqn:Hhtml.
  - exists (WithStatus (send_file (resource_filename "static/assets/500.html"))
              (Some 500)).
    split; reflexivity.
  - destruct (errors_response_single float_repr json_iso_dttm_ser allow_nan
                recursion_limit
                {| message := error_msg_from_exception ex;
                   error_type := GENERIC_BACKEND_ERROR;
                   level := ERROR; extra := None |} 500 eq_refl)
      as [body [_ Hr]].
    rewrite Hr. eexists. split; reflexivity.
Qed.

(** X7: on a [CSRFError], a request that is not JSON is redirected to the
    login page whatever the error holds; a JSON request gets the JSON
    error object at the code of the error whenever that code is none of
    0, 404 and 500, also from a client that accepts HTML. *)
Theorem refresh_csrf_token_redirects_or_answers_json
    (request : Request) (code : option Z) (description : string) :
  let ex := CSRFError code description in
  let r := refresh_csrf_token float_repr json_iso_dttm_ser allow_nan
             recursion_limit error_msg_from_exception send_file
             resource_filename config redirect login_url request ex in
  (is_json request = false -> r = Ok (Plain (redirect login_url))) /\
  (is_json request = true ->
   forall c, code = Some c -> c <> 0 -> c <> 404 -> c <> 500 ->
   let errors :=
     VDict [("errors",
             VList [asdict {| message := error_msg_from_exception ex;
                              error_type := GENERIC_BACKEND_ERROR;
                              level := ERROR; extra := None |}])] in
   json_dumps float_repr json_iso_dttm_ser allow_nan recursion_limit errors
   = Ok (render float_repr errors) /\
   r = Ok (Plain (Response_ (render float_repr errors) c
                    "application/json; charset=utf-8"))).
Proof.
  intros ex r. subst r. unfold refresh_csrf_token. split.
  - now intros ->.
  - intros -> c -> H0 H404 H500.
    split; [now apply dumps_render|].
    unfold show_http_exception. simpl exn_code. simpl code_in_404_500.
    apply Z.eqb_neq in H0, H404, H500. rewrite H404, H500. simpl orb.
    rewrite !andb_false_r. simpl code_or_500. rewrite H0.
    unfold json_errors_response. simpl dict_set. simpl map.
    now rewrite dumps_render by reflexivity.
Qed.

(** X8: on the exceptions that carry structured errors the decorator and
    the handlers by class agree: [handle_api_exception] answers to them as
    [errorhandler] does, for a [SupersetSecurityException] as long as its
    payload is absent or empty. *)
Theorem decorator_agrees_with_errorhandler (request : Request) (ex : exn) :
  carries_errors ex = true ->
  match ex with
  | SupersetSecurityException _ _ p => truthy_dict p = false
  | _ => True
  end ->
  handle_api_exception_ (Raise ex) = errorhandler_ request ex.
Proof.
  intros Hc Hp. destruct ex; try discriminate Hc; try reflexivity.
  simpl. unfold show_superset_error, json_errors_response.
  destruct payload as [[|kv d]|]; try discriminate Hp; reflexivity.
Qed.

(** X9: a plain [SupersetException] keeps its own status under
    [handle_api_exception] and loses it at the handlers by class, where it
    falls to the catch-all: there the client sees status 500. *)
Theorem superset_exception_status_by_path
    (request : Request) (msg : string) (status : Z) :
  let ex := SupersetException msg status in
  exists r1 r2,
    handle_api_exception_ (Raise ex) = Ok r1 /\ final_status r1 = status /\
    errorhandler_ request ex = Ok r2 /\ final_status r2 = 500.
Proof.
  intros ex.
  destruct (free_text_answers ex eq_refl) as [body [_ Hr]].
  destruct (unexpected_answers_500 request ex) as [r2 [H2 Hs]].
  eexists. exists r2. split; [exact Hr|]. split; [reflexivity|].
  split; [exact H2 | exact Hs].
Qed.

Lemma errors_response_native (errors : list SupersetError) (status : Z) :
  forallb native_error errors = true ->
  exists r, errors_response errors status None = Ok r.
Proof.
  intros He. unfold json_errors_response.
  assert (Hn : native (VDict (dict_set "errors" (VList (map asdict errors)) [])) = true).
  { apply native_asdict in He. simpl dict_set.
    change (native (VList (map asdict errors)) && true = true)%bool.
    now rewrite He. }
  destruct (dumps_native float_repr json_iso_dttm_ser allow_nan recursion_limit _ Hn)
    as [body ->].
  eexists; reflexivity.
Qed.

Lemma http_exception_answers (request : Request) (ex : exn) :
  exists r,
    show_http_exception float_repr json_iso_dttm_ser allow_nan recursion_limit
      error_msg_from_exception send_file resource_filename config request ex
    = Ok r.
Proof.
  unfold show_http_exception.
  destruct (accepts_text_html request && negb (DEBUG config)
            && code_in_404_500 (exn_code ex))%bool.
  - eexists; reflexivity.
  - apply errors_response_native. reflexivity.
Qed.

(** X10: the handlers by class answer every exception whose structured
    errors, payload and normalized messages are JSON-native: whatever the
    request, [errorhandler] returns a response and does not raise. *)
Theorem errorhandler_answers (request : Request) (ex : exn) :
  native_exception ex = true ->
  exists r, errorhandler_ request ex = Ok r.
Proof.
  intros Hn.
  destruct ex; simpl in Hn; cbv beta iota delta [errorhandler];
    try (match goal with
         | |- context [show_unexpected_exception _ _ _ _ _ _ _ _ _ ?e] =>
             destruct (unexpected_answers_500 request e) as [r [Hr _]];
             exists r; exact Hr
         end).
  - apply andb_prop in Hn as [He _].
    apply errors_response_native. simpl. now rewrite He.
  - now apply errors_response_native.
  - apply errors_response_native. simpl. now rewrite Hn.
  - unfold show_command_errors.
    destruct (accepts_text_html request && negb (DEBUG config))%bool;
      [eexists; reflexivity|].
    apply errors_response_native. reflexivity.
  - unfold show_command_errors.
    destruct (accepts_text_html request && negb (DEBUG config))%bool;
      [eexists; reflexivity|].
    apply errors_response_native. simpl command_fields. cbv iota beta.
    unfold native_error. simpl extra. simpl forallb. now rewrite Hn.
  - apply http_exception_answers.
  - unfold refresh_csrf_token. destruct (is_json request).
    + apply http_exception_answers.
    + eexists; reflexivity.
Qed.

End MoreViewFacts.

(* ================================================================== *)
(** * Further properties of the bootstrap payload *)

Lemma existsb_eqb_In (k : string) (l : list string) :
  existsb (String.eqb k) l = false -> ~ In k l.
Proof.
  induction l as [|x l IH]; simpl; [tauto|].
  intros H. apply orb_false_elim in H as [Hx Hl].
  intros [<- | Hin]; [now rewrite String.eqb_refl in Hx | now apply IH].
Qed.

Lemma keys_dict_set_absent {A : Type} (k : string) (v : A) (d : list (string * A)) :
  ~ In k (keys d) -> keys (dict_set k v d) = (keys d ++ [k])%list.
Proof.
  unfold keys. induction d as [|[k' v'] d IH]; simpl; [reflexivity|].
  intros Hn. destruct (String.eqb k k') eqn:E.
  - apply String.eqb_eq in E. exfalso. apply Hn. now left.
  - simpl. rewrite IH; [reflexivity|]. intros Hin. apply Hn. now right.
Qed.

Lemma keys_of_comprehension {A : Type} (f : string -> A) (ks : list string) :
  keys (map (fun k => (k, f k)) ks) = ks.
Proof.
  unfold keys. rewrite map_map. simpl. apply map_id.
Qed.

Lemma dict_get_comprehension {A : Type} (f : string -> A) (ks : list string) k :
  In k ks -> dict_get k (map (fun k => (k, f k)) ks) = Some (f k).
Proof.
  induction ks as [|k' ks IH]; simpl; [contradiction|].
  intros Hin. destruct (String.eqb k k') eqn:E.
  - apply String.eqb_eq in E. now subst.
  - destruct Hin as [-> | Hin]; [now rewrite String.eqb_refl in E | now apply IH].
Qed.

Lemma dict_get_notin_keys {A : Type} (k : string) (d : list (string * A)) :
  ~ In k (keys d) -> dict_get k d = None.
Proof. apply dict_get_None_notin. Qed.

(** X11: when the override function leaves ["conf"] alone, the ["conf"]
    member of the bootstrap data has as its keys the keys of
    [FRONTEND_CONF_KEYS], in that order, followed by
    [ALERT_REPORTS_NOTIFICATION_METHODS] and [HAS_GSHEETS_INSTALLED], and
    no other; under a key of [FRONTEND_CONF_KEYS] stands what [conf.get]
    gives, a set turned into a list. The Slack token is not among them:
    only whether it is set shows, in the notification methods. *)
Theorem bootstrap_conf_is_the_allow_list
    (a : Ambient) (user_id : option Z) (locale : string) (data : dict) :
  common_bootstrap_data a user_id locale = Ok data ->
  (forall d, dict_get "conf" (COMMON_BOOTSTRAP_OVERRIDES_FUNC a d) = None) ->
  exists frontend_config,
    dict_get "conf" data = Some (VDict frontend_config) /\
    keys frontend_config
    = (FRONTEND_CONF_KEYS
       ++ ["ALERT_REPORTS_NOTIFICATION_METHODS"; "HAS_GSHEETS_INSTALLED"])%list /\
    (forall k, In k FRONTEND_CONF_KEYS ->
       dict_get k frontend_config
       = Some (match conf_get a k with VSet xs => VList xs | v => v end)) /\
    dict_get "SLACK_API_TOKEN" frontend_config = None /\
    dict_get "ALERT_REPORTS_NOTIFICATION_METHODS" frontend_config
    = Some (if truthy (conf_get a "SLACK_API_TOKEN")
            then VList [EMAIL; SLACK] else VList [EMAIL]).
Proof.
  intros Hdata Hover. unfold common_bootstrap_data in Hdata. cbv zeta in Hdata.
  pose (f := fun k => match conf_get a k with VSet xs => VList xs | v => v end).
  pose (fc0 := map (fun k => (k, f k)) FRONTEND_CONF_KEYS).
  change (map (fun k => (k, match conf_get a k with
                            | VSet xs => VList xs
                            | v => v
                            end)) FRONTEND_CONF_KEYS) with fc0 in Hdata.
  set (methods := if truthy (conf_get a "SLACK_API_TOKEN")
                  then VList [EMAIL; SLACK] else VList [EMAIL]).
  set (fc1 := dict_set "ALERT_REPORTS_NOTIFICATION_METHODS" methods fc0).
  set (fc2 := dict_set "HAS_GSHEETS_INSTALLED" (VBool (gsheets_installed a)) fc1).
  assert (Hfc : (if truthy (conf_get a "SLACK_API_TOKEN")
                 then dict_set "ALERT_REPORTS_NOTIFICATION_METHODS"
                        (VList [EMAIL; SLACK]) fc0
                 else dict_set "ALERT_REPORTS_NOTIFICATION_METHODS"
                        (VList [EMAIL]) fc0) = fc1).
  { subst fc1 methods. now destruct (truthy (conf_get a "SLACK_API_TOKEN")). }
  rewrite Hfc in Hdata. fold fc2 in Hdata.
  destruct (dict_getitem "EXTRA_SEQUENTIAL_COLOR_SCHEMES" (conf a)) as [sq|]; [|discriminate].
  destruct (dict_getitem "EXTRA_CATEGORICAL_COLOR_SCHEMES" (conf a)) as [ct|]; [|discriminate].
  destruct (dict_getitem "THEME_OVERRIDES" (conf a)) as [th|]; [|discriminate].
  destruct (menu_data a) as [menu|]; [|discriminate].
  simpl in Hdata.
  destruct (dict_getitem "COMMON_BOOTSTRAP_OVERRIDES_FUNC" (conf a)) as [fn|];
    [|discriminate].
  simpl in Hdata. injection Hdata as <-.
  assert (Hk0 : keys fc0 = FRONTEND_CONF_KEYS) by apply keys_of_comprehension.
  assert (Hn1 : ~ In "ALERT_REPORTS_NOTIFICATION_METHODS" (keys fc0)).
  { rewrite Hk0. apply existsb_eqb_In. reflexivity. }
  assert (Hk1 : keys fc1
                = (FRONTEND_CONF_KEYS ++ ["ALERT_REPORTS_NOTIFICATION_METHODS"])%list).
  { subst fc1. rewrite keys_dict_set_absent by assumption. now rewrite Hk0. }
  assert (Hn2 : ~ In "HAS_GSHEETS_INSTALLED" (keys fc1)).
  { rewrite Hk1. apply existsb_eqb_In. reflexivity. }
  exists fc2. split; [|split; [|split; [|split]]].
  - rewrite dict_update_get_skip by apply Hover. reflexivity.
  - subst fc2. rewrite keys_dict_set_absent by assumption.
    rewrite Hk1, <- app_assoc. reflexivity.
  - intros k Hin.
    assert (k <> "HAS_GSHEETS_INSTALLED").
    { intros ->. apply Hn2. rewrite Hk1. apply in_or_app. now left. }
    assert (k <> "ALERT_REPORTS_NOTIFICATION_METHODS").
    { intros ->. apply Hn1. now rewrite Hk0. }
    subst fc2 fc1. rewrite !dict_get_set_other by assumption.
    subst fc0. now apply (dict_get_comprehension f).
  - apply dict_get_notin_keys. subst fc2.
    rewrite keys_dict_set_absent by assumption. rewrite Hk1.
    apply existsb_eqb_In. reflexivity.
  - subst fc2. rewrite dict_get_set_other by discriminate.
    subst fc1. apply dict_get_set_same.
Qed.

(** X12: the bootstrap data is computed exactly when the configuration has
    the three keys read with [conf[...]], [menu_data] returns and the
    configuration has [COMMON_BOOTSTRAP_OVERRIDES_FUNC]. When some of the
    three keys are missing the call raises [KeyError] for the first
    missing one, in the order [EXTRA_SEQUENTIAL_COLOR_SCHEMES],
    [EXTRA_CATEGORICAL_COLOR_SCHEMES], [THEME_OVERRIDES]; with the three
    present it raises what [menu_data] raises; after that it raises
    [KeyError] for a missing [COMMON_BOOTSTRAP_OVERRIDES_FUNC]. Keys read
    with [conf.get] may be missing. *)
Theorem bootstrap_raises_for_the_first_missing_key
    (a : Ambient) (user_id : option Z) (locale : string) :
  let required := [ "EXTRA_SEQUENTIAL_COLOR_SCHEMES";
                    "EXTRA_CATEGORICAL_COLOR_SCHEMES";
                    "THEME_OVERRIDES" ] in
  let r := common_bootstrap_data a user_id locale in
  match filter (fun k => negb (dict_mem k (conf a))) required with
  | k :: _ => r = Raise (KeyError k)
  | [] =>
      match menu_data a with
      | Raise e => r = Raise e
      | Ok _ =>
          if dict_mem "COMMON_BOOTSTRAP_OVERRIDES_FUNC" (conf a)
          then exists data, r = Ok data
          else r = Raise (KeyError "COMMON_BOOTSTRAP_OVERRIDES_FUNC")
      end
  end.
Proof.
  unfold common_bootstrap_data, dict_getitem, dict_mem. simpl filter.
  destruct (dict_get "EXTRA_SEQUENTIAL_COLOR_SCHEMES" (conf a)); simpl;
    [|reflexivity].
  destruct (dict_get "EXTRA_CATEGORICAL_COLOR_SCHEMES" (conf a)); simpl;
    [|reflexivity].
  destruct (dict_get "THEME_OVERRIDES" (conf a)); simpl; [|reflexivity].
  destruct (menu_data a); simpl; [|reflexivity].
  destruct (dict_get "COMMON_BOOTSTRAP_OVERRIDES_FUNC" (conf a)); simpl;
    [|reflexivity].
  eexists; reflexivity.
Qed.

(** X13: an entry is served for less than 60 seconds. When a call had to
    compute and stored its value at [now1], a call with the same arguments
    at [now1 + 60] or later runs the function again, in the ambient state
    of that moment, and returns what it gives then. *)
Theorem cached_entry_expires_after_60_seconds
    (backend : CacheBackend) (a a' : Ambient) (c : Cache) (now1 now2 : Z)
    (u : option Z) (l : string) (v : dict) :
  store_get backend now1 (u, l) c = None ->
  common_bootstrap_data a u l = Ok v ->
  now1 + 60 <= now2 ->
  let first := cached_common_bootstrap_data backend a now1 c u l in
  fst first = Ok v /\
  fst (cached_common_bootstrap_data backend a' now2 (snd first) u l)
  = common_bootstrap_data a' u l.
Proof.
  intros Hmiss Hv Hlate first. subst first.
  unfold cached_common_bootstrap_data, memoize. rewrite Hmiss, Hv. simpl.
  split; [reflexivity|].
  assert (Hdead : store_get backend now2 (u, l)
                    (store_set backend now1 60 (u, l) v c) = None).
  { destruct backend; [reflexivity|].
    unfold store_get, store_set, cache_get, cache_set. simpl.
    rewrite cache_key_eqb_refl. simpl.
    destruct (now2 <? now1 + 60) eqn:E; [|reflexivity].
    apply Z.ltb_lt in E. lia. }
  rewrite Hdead. now destruct (common_bootstrap_data a' u l).
Qed.

(** X14: a bootstrap that fails does not use up the flash messages. When
    the cached part raises, [common_bootstrap_payload] raises with the
    cache, the session and the request context as they were, and the next
    call of the request that succeeds still returns the pending messages. *)
Theorem failed_bootstrap_keeps_the_flashes
    (backend : CacheBackend) (a a' : Ambient) (now now' : Z)
    (c : Cache) (rc : RequestContext) (fl : flashes) (e : exn) (v : dict) :
  store_get backend now (current_user_id rc, current_locale rc) c = None ->
  common_bootstrap_data a (current_user_id rc) (current_locale rc) = Raise e ->
  common_bootstrap_data a' (current_user_id rc) (current_locale rc) = Ok v ->
  ctx_flashes rc = None ->
  session_flashes rc = Some fl ->
  common_bootstrap_payload backend a now c rc = (Raise e, c, rc) /\
  exists p c' rc',
    common_bootstrap_payload backend a' now' c rc = (Ok p, c', rc') /\
    dict_get "flash_messages" p = Some (flashes_value fl).
Proof.
  intros Hmiss Hfail Hok Hctx Hses. split.
  - unfold common_bootstrap_payload, cached_common_bootstrap_data, memoize.
    now rewrite Hmiss, Hfail.
  - destruct (cached_call_returns backend a' now' c _ _ v Hok) as [v' [c' Hcall]].
    exists (dict_set "flash_messages" (flashes_value fl) v'), c'.
    eexists. split; [|apply dict_get_set_same].
    unfold common_bootstrap_payload, get_flashed_messages.
    now rewrite Hcall, Hctx, Hses.
Qed.

(* ================================================================== *)
(** * Further properties of the decorators, helpers and hooks *)

Lemma string_app_nil_r (s : string) : s ++ "" = s.
Proof. induction s as [|c s IH]; simpl; [reflexivity | now rewrite IH]. Qed.

(** X15: [deprecated] hands back what the wrapped view returns, response or
    exception, and logs one warning. The template of the warning has one
    [%s] for each of its arguments, so it formats: to the class and the
    name of the view, the version, and the new target when one that is not
    empty was given. *)
Theorem deprecated_logs_and_delegates
    (eol_version : string) (new_target : option string)
    (class_name f_name : string) (f : result FlaskResponse) :
  exists record,
    deprecated eol_version new_target class_name f_name f = ([record], f) /\
    levelname record = "WARNING" /\
    percent_format (msg_template record) (log_args record)
    = Ok (class_name ++ "." ++ f_name
          ++ " This API endpoint is deprecated and will be removed in version "
          ++ eol_version
          ++ match new_target with
             | Some (String c t) =>
                 " . Use the following API endpoint instead: " ++ String c t
             | _ => ""
             end).
Proof.
  unfold deprecated.
  destruct new_target as [[|c t]|]; eexists; (split; [reflexivity|]);
    (split; [reflexivity|]); simpl; try reflexivity.
  now rewrite string_app_nil_r.
Qed.

(** X16: [get_environment_tag] gives the template of the environment the
    variable names when the variable is set, not empty, and names a
    template. In every other case it gives the template under ["debug"]
    when the application runs in debug mode and one is configured, and the
    empty mapping otherwise: a name that is unknown never selects a
    template outside debug mode. *)
Theorem environment_tag_by_cases
    (debug : bool) (values : list (string * dict))
    (variable : string) (environ : string -> option string) :
  let tag := get_environment_tag debug values variable environ in
  let fallback :=
    if debug
    then match dict_get "debug" values with Some t => t | None => [] end
    else [] in
  (forall n t, environ variable = Some n -> n <> "" ->
     dict_get n values = Some t -> tag = t) /\
  (environ variable = None -> tag = fallback) /\
  (environ variable = Some "" -> tag = fallback) /\
  (forall n, environ variable = Some n -> dict_get n values = None ->
     tag = fallback).
Proof.
  intros tag fallback. subst tag fallback. unfold get_environment_tag, dict_mem.
  repeat split.
  - intros n t -> Hn Ht. destruct n as [|c n]; [contradiction|].
    simpl. rewrite Ht. simpl. rewrite Ht. now destruct t.
  - intros ->. simpl. destruct debug; [|reflexivity].
    now destruct (dict_get "debug" values) as [[|kv t]|].
  - intros ->. simpl. destruct debug; [|reflexivity].
    now destruct (dict_get "debug" values) as [[|kv t]|].
  - intros n -> Hn. rewrite Hn.
    replace (negb (truthy_str (Some n)) || negb false)%bool with true
      by (now rewrite orb_true_r).
    destruct debug; [|reflexivity].
    now destruct (dict_get "debug" values) as [[|kv t]|].
Qed.

(** ** [bind_field] and its filter *)










(** X18: when the unbound field declares filters, [bind_field] appends to
    that very list: after the field has been bound [n + 1] times its
    declared list, and the list of the last binding, is the declared list
    followed by [n + 1] copies of the stripping filter. A field that
    declares none is bound with the one filter each time. *)
Theorem bind_field_grows_the_declared_list
    (n : nat) (declared : list (value -> value)) :
  bind_field_times n (Some declared)
  = ((declared ++ repeat strip_filter (S n))%list,
     Some (declared ++ repeat strip_filter (S n))%list) /\
  bind_field_times n None = ([strip_filter], None).
Proof.
  split.
  - revert declared. induction n as [|n IH]; intros declared; simpl.
    + reflexivity.
    + rewrite IH. simpl. now rewrite <- !app_assoc.
  - induction n as [|n IH]; simpl; [reflexivity | exact IH].
Qed.

(** ** The after-request hook, on what the response already has *)

(** X19: [apply_http_headers] leaves the body and the status alone and
    removes or changes no header: the headers of the response stay, in
    their order, in front of what the hook adds. So for a key the response
    already has, also one that [OVERRIDE_HTTP_HEADERS] names, the first
    value under that key is still the one of the response. *)
Theorem apply_http_headers_keeps_the_response (config : Config) (response : Response) :
  let out := apply_http_headers config response in
  data out = data response /\
  status_code out = status_code response /\
  (exists added, headers out = (headers response ++ added)%list) /\
  (forall k, headers_contains k (headers response) = true ->
     headers_get k (headers out) = headers_get k (headers response)).
Proof.
  intros out.
  assert (Happ : exists added, headers out = (headers response ++ added)%list).
  { subst out. unfold apply_http_headers. simpl headers.
    rewrite headers_extend_app.
    destruct (defaults_append (DEFAULT_HTTP_HEADERS config)
                (headers response
                 ++ dict_update (OVERRIDE_HTTP_HEADERS config) (HTTP_HEADERS config))%list)
      as [tail ->].
    eexists. now rewrite <- app_assoc. }
  split; [reflexivity|]. split; [reflexivity|]. split; [exact Happ|].
  intros k Hk. destruct Happ as [added ->]. now apply headers_get_app.
Qed.

(* ================================================================== *)
(** * Properties of [DeleteMixin] *)

Lemma same_view_menu_eq (v v' : option string) :
  same_view_menu v v' = true <-> v = v'.
Proof.
  destruct v as [n|], v' as [n'|]; simpl; split; intros H;
    try discriminate; try reflexivity.
  - apply String.eqb_eq in H. now subst.
  - injection H as ->. apply String.eqb_refl.
Qed.

Lemma pv_eqb_refl (p : PermissionView) : pv_eqb p p = true.
Proof.
  unfold pv_eqb. rewrite Z.eqb_refl. simpl. now apply same_view_menu_eq.
Qed.

Lemma pv_eqb_view_menu (p q : PermissionView) :
  pv_eqb p q = true -> pv_view_menu p = pv_view_menu q.
Proof.
  unfold pv_eqb. intros H. apply andb_prop in H as [_ H].
  now apply same_view_menu_eq.
Qed.

Lemma find_filter_keeps {A : Type} (p q : A -> bool) (l : list A) :
  (forall x, p x = true -> q x = true) ->
  find p (filter q l) = find p l.
Proof.
  intros Hpq. induction l as [|x l IH]; simpl; [reflexivity|].
  destruct (q x) eqn:Eq; simpl.
  - now rewrite IH.
  - destruct (p x) eqn:Ep; [|exact IH].
    apply Hpq in Ep. congruence.
Qed.

Lemma filter_filter {A : Type} (f g : A -> bool) (l : list A) :
  filter f (filter g l) = filter (fun x => g x && f x)%bool l.
Proof.
  induction l as [|x l IH]; simpl; [reflexivity|].
  destruct (g x); simpl; [destruct (f x); now rewrite IH | exact IH].
Qed.

Lemma filter_true {A : Type} (f : A -> bool) (l : list A) :
  (forall x, In x l -> f x = true) -> filter f l = l.
Proof.
  induction l as [|x l IH]; simpl; [reflexivity|].
  intros H. rewrite (H x (or_introl eq_refl)). f_equal.
  apply IH. intros y Hy. apply H. now right.
Qed.

Section DeleteFacts.

Variable pre_delete : Item -> option exn.
Variable post_delete : Item -> option exn.
Variable base_filters : Item -> bool.
Variable deletable : Item -> bool.
Variable datamodel_message : Item -> bool -> string * string.
Variable str_of_exception : exn -> string.
Variable redirect_back : Response.

Local Abbreviation get := (datamodel_get base_filters).
Local Abbreviation delete_ :=
  (_delete pre_delete post_delete base_filters deletable datamodel_message
     str_of_exception).
Local Abbreviation loop :=
  (muldelete_loop pre_delete post_delete base_filters deletable datamodel_message
     str_of_exception).
Local Abbreviation muldelete_ :=
  (muldelete pre_delete post_delete base_filters deletable datamodel_message
     str_of_exception redirect_back).

(** The record [get] finds is a row, has the key asked for and passes the
    base filters. *)
Lemma get_some (pk : Z) (w : Tables) (item : Item) :
  get pk w = Some item ->
  In item (rows w) /\ item_id item = pk /\ base_filters item = true.
Proof.
  unfold datamodel_get. intros H. apply find_some in H as [Hin Hp].
  apply andb_prop in Hp as [Hid Hf]. apply Z.eqb_eq in Hid. auto.
Qed.

(** [get] reads the rows only. *)
Lemma get_rows (pk : Z) (w w' : Tables) :
  rows w' = rows w -> get pk w' = get pk w.
Proof. unfold datamodel_get. now intros ->. Qed.

(** What [_delete] leaves of a record that passes its hooks. *)
Lemma delete_passing (w : Tables) (item : Item) :
  get (item_id item) w = Some item ->
  pre_delete item = None ->
  post_delete item = None ->
  exists w',
    delete_ (item_id item) w = (Ok tt, w') /\
    rows w'
    = (if deletable item
       then filter (fun r => negb (item_id r =? item_id item)) (rows w)
       else rows w) /\
    flashed w'
    = (flashed w
       ++ [(snd (datamodel_message item (deletable item)),
            fst (datamodel_message item (deletable item)))])%list.
Proof.
  intros Hget Hpre Hpost. unfold _delete. rewrite Hget, Hpre.
  destruct (deletable item).
  - rewrite Hpost. eexists. split; [reflexivity|]. split; reflexivity.
  - eexists. split; [reflexivity|]. split; reflexivity.
Qed.

(** X20: when a record is found, passes both hooks and is deleted,
    [_delete] removes the row of that key and no other row, the view menu
    named by the permission of the record, and the permission views under
    the view menu that was found for it; the other view menus and
    permission views stay; the message of the datamodel is flashed. *)
Theorem delete_removes_the_permissions_of_the_record
    (primary_key : Z) (w : Tables) (item : Item) :
  get primary_key w = Some item ->
  pre_delete item = None ->
  deletable item = true ->
  post_delete item = None ->
  exists w',
    delete_ primary_key w = (Ok tt, w') /\
    (forall r, In r (rows w') <-> In r (rows w) /\ item_id r <> primary_key) /\
    ~ In (item_perm item) (view_menus w') /\
    (forall n, n <> item_perm item ->
       (In n (view_menus w') <-> In n (view_menus w))) /\
    (forall pv, In pv (permission_views w') <->
       In pv (permission_views w) /\
       pv_view_menu pv <> find_view_menu (item_perm item) w) /\
    flashed w'
    = (flashed w ++ [(snd (datamodel_message item true),
                      fst (datamodel_message item true))])%list.
Proof.
  intros Hget Hpre Hdel Hpost.
  destruct (get_some _ _ _ Hget) as [_ [Hid _]].
  unfold _delete. rewrite Hget, Hpre, Hdel, Hpost. cbv zeta.
  eexists. split; [reflexivity|]. simpl.
  split; [|split; [|split; [|split]]].
  - intros r. rewrite filter_In, negb_true_iff, Z.eqb_neq, Hid. tauto.
  - unfold find_view_menu.
    destruct (existsb (String.eqb (item_perm item)) (view_menus w)) eqn:E.
    + rewrite filter_In, String.eqb_refl. simpl. intros [_ H]. discriminate.
    + intros Hin.
      assert (existsb (String.eqb (item_perm item)) (view_menus w) = true).
      { apply existsb_exists. exists (item_perm item).
        split; [assumption | apply String.eqb_refl]. }
      congruence.
  - intros n Hn. destruct (find_view_menu (item_perm item) w) as [name|] eqn:E;
      [|tauto].
    unfold find_view_menu in E.
    destruct (existsb (String.eqb (item_perm item)) (view_menus w)); [|discriminate].
    injection E as <-.
    rewrite filter_In, negb_true_iff, String.eqb_neq. tauto.
  - intros pv. rewrite filter_In, negb_true_iff. split.
    + intros [Hin Hex]. split; [assumption|]. intros Heq.
      assert (existsb (pv_eqb pv)
                (filter (fun pv0 => same_view_menu (pv_view_menu pv0)
                                      (find_view_menu (item_perm item) w))
                   (permission_views w)) = true).
      { apply existsb_exists. exists pv. split; [|apply pv_eqb_refl].
        apply filter_In. split; [assumption|]. now apply same_view_menu_eq. }
      congruence.
    + intros [Hin Hne]. split; [assumption|].
      destruct (existsb _ _) eqn:E; [|reflexivity].
      apply existsb_exists in E as [d [Hd Heq]].
      apply filter_In in Hd as [_ Hd]. apply same_view_menu_eq in Hd.
      apply pv_eqb_view_menu in Heq. congruence.
  - reflexivity.
Qed.

(** The record of the batch that [r] is, and that was deleted. *)
Local Abbreviation deleted_by items :=
  (fun r : Item =>
     existsb (fun i => (item_id i =? item_id r)
                       && passes pre_delete i && deletable i)%bool items).

Lemma NoDup_ids_cons (item : Item) (items : list Item) (i : Item) :
  NoDup (map item_id (item :: items)) -> In i items -> item_id i <> item_id item.
Proof.
  simpl. intros Hnd Hin Heq. inversion Hnd as [|? ? Hnotin _]; subst.
  apply Hnotin. rewrite <- Heq. now apply in_map.
Qed.

(** The loop over a batch of distinct records that are all found, whose
    [post_delete] returns. *)
Lemma loop_over_distinct (items : list Item) :
  forall w,
    NoDup (map item_id items) ->
    (forall i, In i items -> get (item_id i) w = Some i) ->
    (forall i, In i items -> post_delete i = None) ->
    exists w' more,
      loop items w = (Ok tt, w') /\
      rows w' = filter (fun r => negb (deleted_by items r)) (rows w) /\
      flashed w' = (flashed w ++ more)%list /\
      (forall i ex, In i items -> pre_delete i = Some ex ->
         In ("danger", str_of_exception ex) more).
Proof.
  induction items as [|item items IH]; intros w Hnd Hget Hpost.
  - exists w, []. simpl. split; [reflexivity|]. split.
    + symmetry. now apply filter_true.
    + split; [now rewrite app_nil_r | contradiction].
  - assert (Hnd' : NoDup (map item_id items)) by (now inversion Hnd).
    assert (Hpost' : forall i, In i items -> post_delete i = None)
      by (intros i Hi; apply Hpost; now right).
    simpl muldelete_loop.
    destruct (pre_delete item) as [ex|] eqn:Hpre.
    + (* the hook raises: the record is flashed and skipped *)
      destruct (IH (flash (str_of_exception ex) "danger" w) Hnd') as
        [w' [more [Hloop [Hrows [Hfl Hmore]]]]]; [|assumption|].
      { intros i Hi.
        rewrite (get_rows (item_id i) w (flash (str_of_exception ex) "danger" w)
                   eq_refl).
        apply Hget. now right. }
      exists w', (("danger", str_of_exception ex) :: more).
      split; [exact Hloop|]. split; [|split].
      * assert (Hpass : passes pre_delete item = false)
          by (unfold passes; now rewrite Hpre).
        rewrite Hrows. simpl rows. apply filter_ext. intros r.
        cbn [existsb].
        now rewrite Hpass, andb_false_r.
      * rewrite Hfl. simpl flashed. now rewrite <- app_assoc.
      * intros i ex' [<- | Hi] Hex.
        -- rewrite Hpre in Hex. injection Hex as <-. now left.
        -- right. now apply (Hmore i).
    + (* the hook returns: [_delete] runs *)
      destruct (delete_passing w item (Hget item (or_introl eq_refl)) Hpre
                  (Hpost item (or_introl eq_refl)))
        as [w1 [Hdel [Hrows1 Hfl1]]].
      rewrite Hdel.
      destruct (IH w1 Hnd') as [w' [more [Hloop [Hrows [Hfl Hmore]]]]];
        [|assumption|].
      { intros i Hi.
        assert (Hne : item_id i <> item_id item)
          by (now apply (NoDup_ids_cons item items)).
        unfold datamodel_get. rewrite Hrows1.
        destruct (deletable item); [|apply Hget; now right].
        rewrite find_filter_keeps; [apply Hget; now right|].
        intros x Hx. apply andb_prop in Hx as [Hx _].
        apply Z.eqb_eq in Hx. apply negb_true_iff, Z.eqb_neq. congruence. }
      exists w'. eexists. split; [exact Hloop|]. split; [|split].
      * assert (Hpass : passes pre_delete item = true)
          by (unfold passes; now rewrite Hpre).
        rewrite Hrows, Hrows1.
        destruct (deletable item) eqn:Hdeletable.
        -- rewrite filter_filter. apply filter_ext. intros r.
           cbn [existsb].
           rewrite Hpass, Hdeletable, !andb_true_r, negb_orb.
           now rewrite (Z.eqb_sym (item_id r)).
        -- apply filter_ext. intros r.
           cbn [existsb].
           now rewrite Hdeletable, andb_false_r.
      * rewrite Hfl, Hfl1, <- app_assoc. reflexivity.
      * intros i ex' [<- | Hi] Hex; [congruence|].
        apply in_or_app. right. now apply (Hmore i).
Qed.

(** X21: [muldelete] aborts with 404 on an empty selection. On a selection
    of distinct records that are all found, and whose [post_delete]
    returns, it does not raise and answers with the redirect: a record
    whose [pre_delete] raises stays in the table and the text of its
    exception is flashed as ["danger"], and the rows that are gone are
    those of the records whose [pre_delete] returned and that the datamodel
    could delete. Flashed messages are only added. *)
Theorem muldelete_skips_the_records_that_fail (items : list Item) (w : Tables) :
  muldelete_ [] w = (Raise abort_404, w) /\
  (items <> [] ->
   NoDup (map item_id items) ->
   (forall i, In i items -> get (item_id i) w = Some i) ->
   (forall i, In i items -> post_delete i = None) ->
   exists w' more,
     muldelete_ items w = (Ok (Plain redirect_back), w') /\
     flashed w' = (flashed w ++ more)%list /\
     (forall i ex, In i items -> pre_delete i = Some ex ->
        In i (rows w') /\ In ("danger", str_of_exception ex) more) /\
     (forall r, In r (rows w') <->
        In r (rows w) /\
        ~ exists i, In i items /\ item_id i = item_id r /\
                    pre_delete i = None /\ deletable i = true)).
Proof.
  split; [reflexivity|].
  intros Hne Hnd Hget Hpost.
  destruct (loop_over_distinct items w Hnd Hget Hpost)
    as [w' [more [Hloop [Hrows [Hfl Hmore]]]]].
  assert (Hgone : forall r, deleted_by items r = true <->
            exists i, In i items /\ item_id i = item_id r /\
                      pre_delete i = None /\ deletable i = true).
  { intros r. rewrite existsb_exists. split.
    - intros [i [Hi Hp]]. apply andb_prop in Hp as [Hp Hd].
      apply andb_prop in Hp as [Hid Hp]. apply Z.eqb_eq in Hid.
      exists i. unfold passes in Hp.
      destruct (pre_delete i); [discriminate | auto].
    - intros [i [Hi [Hid [Hp Hd]]]]. exists i. split; [assumption|].
      unfold passes. rewrite Hp, Hd, Hid, Z.eqb_refl. reflexivity. }
  assert (Hin : forall r, In r (rows w') <->
            In r (rows w) /\
            ~ exists i, In i items /\ item_id i = item_id r /\
                        pre_delete i = None /\ deletable i = true).
  { intros r. rewrite Hrows, filter_In, negb_true_iff, <- Hgone.
    now rewrite not_true_iff_false. }
  exists w', more. split; [|split; [exact Hfl | split; [|exact Hin]]].
  - unfold muldelete. destruct items as [|i items']; [contradiction|].
    now rewrite Hloop.
  - intros i ex Hi Hex. split; [|now apply (Hmore i)].
    apply Hin. split.
    + now destruct (get_some _ _ _ (Hget i Hi)).
    + intros [j [Hj [Hid [Hp _]]]].
      assert (j = i).
      { clear - Hnd Hi Hj Hid. induction items as [|x items IH];
          [contradiction|].
        simpl in Hnd. inversion Hnd as [|? ? Hnotin Hnd']; subst.
        destruct Hi as [-> | Hi], Hj as [-> | Hj]; auto.
        - exfalso. apply Hnotin. rewrite <- Hid. now apply in_map.
        - exfalso. apply Hnotin. rewrite Hid. now apply in_map. }
      subst j. congruence.
Qed.

(** X22: a record that the selection names twice ends the batch: when it
    passes its hooks and is deleted at its first turn, it is not found at
    the second, and [muldelete] raises the 404 of [_delete] with the row
    already gone and the records after it not looked at. *)
Theorem muldelete_aborts_on_a_record_named_twice
    (item : Item) (others : list Item) (w : Tables) :
  get (item_id item) w = Some item ->
  pre_delete item = None ->
  deletable item = true ->
  post_delete item = None ->
  exists w',
    muldelete_ (item :: item :: others) w = (Raise abort_404, w') /\
    rows w' = filter (fun r => negb (item_id r =? item_id item)) (rows w) /\
    ~ In item (rows w').
Proof.
  intros Hget Hpre Hdel Hpost.
  destruct (delete_passing w item Hget Hpre Hpost) as [w1 [Hd [Hrows _]]].
  rewrite Hdel in Hrows.
  assert (Hgone : get (item_id item) w1 = None).
  { unfold datamodel_get. rewrite Hrows.
    destruct (find _ _) as [x|] eqn:E; [|reflexivity].
    apply find_some in E as [Hin Hp].
    apply filter_In in Hin as [_ Hin]. apply andb_prop in Hp as [Hp _].
    rewrite Hp in Hin. discriminate. }
  exists w1. split; [|split; [exact Hrows|]].
  - unfold muldelete. cbn [muldelete_loop]. rewrite Hpre, Hd.
    unfold _delete. now rewrite Hgone.
  - rewrite Hrows, filter_In, Z.eqb_refl. simpl. intros [_ H]. discriminate.
Qed.

(** X23: [_delete] removes nothing it should not. A row is gone after the
    call only if the record was found, its [pre_delete] returned and the
    datamodel deleted it; permission views or view menus are gone only if,
    besides, [post_delete] returned and the call did not raise. In every
    case the messages flashed before the call are still there, in front. *)
Theorem delete_removes_only_after_the_hooks (primary_key : Z) (w : Tables) :
  let out := delete_ primary_key w in
  (rows (snd out) <> rows w ->
   exists item,
     get primary_key w = Some item /\ pre_delete item = None /\
     deletable item = true) /\
  (permission_views (snd out) <> permission_views w \/
   view_menus (snd out) <> view_menus w ->
   exists item,
     get primary_key w = Some item /\ pre_delete item = None /\
     deletable item = true /\ post_delete item = None /\ fst out = Ok tt) /\
  (exists more, flashed (snd out) = (flashed w ++ more)%list).
Proof.
  intros out. subst out. unfold _delete.
  destruct (get primary_key w) as [item|] eqn:Hget.
  - destruct (pre_delete item) as [ex|] eqn:Hpre.
    + simpl. split; [intros H; now elim H|].
      split; [intros [H | H]; now elim H|]. eexists; reflexivity.
    + destruct (deletable item) eqn:Hdel.
      * destruct (post_delete item) as [ex|] eqn:Hpost; simpl.
        -- split; [intros _; now exists item|].
           split; [intros [H | H]; now elim H|].
           exists []. now rewrite app_nil_r.
        -- split; [intros _; now exists item|].
           split; [intros _; now exists item|]. eexists; reflexivity.
      * simpl. split; [intros H; now elim H|].
        split; [intros [H | H]; now elim H|]. eexists; reflexivity.
  - simpl. split; [intros H; now elim H|].
    split; [intros [H | H]; now elim H|].
    exists []. now rewrite app_nil_r.
Qed.

End DeleteFacts.

(* ================================================================== *)
(** * The further statements at concrete inputs *)

Local Abbreviation sample_errorhandler :=
  (errorhandler Sample.float_repr Sample.json_iso_dttm_ser true 0
     Sample.error_msg_from_exception Sample.send_file Sample.resource_filename
     Sample.production MoreSample.redirect "/login/").

Lemma api_hides_exception_details_witness :
  SHOW_STACKTRACE Sample.production = false /\
  sample_api Sample.production (Raise (KeyError "secret_column"))
  = api Sample.float_repr Sample.json_iso_dttm_ser true 0
      (fun _ => "another trace") Sample.production
      (Raise (DatabaseError "password authentication failed")).
Proof.
  split; [reflexivity|].
  apply (api_hides_exception_details
           Sample.float_repr Sample.json_iso_dttm_ser true 0 Sample.format_exc
           Sample.production (fun _ => "another trace")
           (KeyError "secret_column")
           (DatabaseError "password authentication failed"));
    reflexivity.
Defined.

Lemma handle_api_exception_answers_free_text_witness :
  carries_errors (HTTPException None "no code") = false /\
  exists body,
    sample_dumps (VDict [("error", VStr "no code")]) = Ok body /\
    sample_handle_api_exception (Raise (HTTPException None "no code"))
    = Ok (Plain (Response_ body 200 "application/json")).
Proof.
  split; [reflexivity|].
  apply (handle_api_exception_answers_free_text
           Sample.float_repr Sample.json_iso_dttm_ser true 0
           Sample.error_msg_from_exception (HTTPException None "no code")).
  reflexivity.
Defined.

Lemma json_errors_response_payload_witness :
  "issue" <> "errors" /\
  exists p,
    serves sample_dumps p 400 "application/json; charset=utf-8"
      (sample_errors_response
         [ {| message := "m"; error_type := GENERIC_BACKEND_ERROR;
              level := ERROR; extra := None |} ]
         400 (Some [("errors", VStr "mine"); ("issue", VInt 7)])) /\
    dict_get "issue" p = Some (VInt 7).
Proof.
  split; [discriminate|].
  destruct (json_errors_response_payload
              Sample.float_repr Sample.json_iso_dttm_ser true 0
              [ {| message := "m"; error_type := GENERIC_BACKEND_ERROR;
                   level := ERROR; extra := None |} ]
              400 (Some [("errors", VStr "mine"); ("issue", VInt 7)]))
    as [p [Hs [_ Hk]]].
  exists p. split; [exact Hs|].
  rewrite (Hk "issue"); [reflexivity | discriminate].
Defined.

Lemma refresh_csrf_token_redirects_or_answers_json_witness :
  is_json Sample.browser = false /\
  is_json Sample.api_client = true /\
  refresh_csrf_token Sample.float_repr Sample.json_iso_dttm_ser true 0
    Sample.error_msg_from_exception Sample.send_file Sample.resource_filename
    Sample.production MoreSample.redirect "/login/" Sample.browser
    (CSRFError (Some 400) "The CSRF token has expired.")
  = Ok (Plain (MoreSample.redirect "/login/")) /\
  refresh_csrf_token Sample.float_repr Sample.json_iso_dttm_ser true 0
    Sample.error_msg_from_exception Sample.send_file Sample.resource_filename
    Sample.production MoreSample.redirect "/login/" Sample.api_client
    (CSRFError (Some 400) "The CSRF token has expired.")
  = Ok (Plain (Response_
                 (render Sample.float_repr
                    (VDict [("errors",
                             VList [asdict
                                      {| message :=
                                           Sample.error_msg_from_exception
                                             (CSRFError (Some 400)
                                                "The CSRF token has expired.");
                                         error_type := GENERIC_BACKEND_ERROR;
                                         level := ERROR; extra := None |}])]))
                 400 "application/json; charset=utf-8")).
Proof.
  split; [reflexivity|]. split; [reflexivity|]. split.
  - apply (proj1 (refresh_csrf_token_redirects_or_answers_json
                    Sample.float_repr Sample.json_iso_dttm_ser true 0
                    Sample.error_msg_from_exception Sample.send_file
                    Sample.resource_filename Sample.production
                    MoreSample.redirect "/login/" Sample.browser
                    (Some 400) "The CSRF token has expired.")).
    reflexivity.
  - apply (proj2 (refresh_csrf_token_redirects_or_answers_json
                    Sample.float_repr Sample.json_iso_dttm_ser true 0
                    Sample.error_msg_from_exception Sample.send_file
                    Sample.resource_filename Sample.production
                    MoreSample.redirect "/login/" Sample.api_client
                    (Some 400) "The CSRF token has expired.")
             eq_refl 400 eq_refl); lia.
Defined.

Lemma decorator_agrees_with_errorhandler_witness :
  carries_errors
    (SupersetSecurityException
       {| message := "denied"; error_type := OTHER_ERROR_TYPE "TABLE_SECURITY_ACCESS_ERROR";
          level := WARNING; extra := None |} 403 None) = true /\
  truthy_dict None = false /\
  sample_handle_api_exception
    (Raise (SupersetSecurityException
              {| message := "denied";
                 error_type := OTHER_ERROR_TYPE "TABLE_SECURITY_ACCESS_ERROR";
                 level := WARNING; extra := None |} 403 None))
  = sample_errorhandler Sample.api_client
      (SupersetSecurityException
         {| message := "denied";
            error_type := OTHER_ERROR_TYPE "TABLE_SECURITY_ACCESS_ERROR";
            level := WARNING; extra := None |} 403 None).
Proof.
  split; [reflexivity|]. split; [reflexivity|].
  apply (decorator_agrees_with_errorhandler
           Sample.float_repr Sample.json_iso_dttm_ser true 0
           Sample.error_msg_from_exception Sample.send_file
           Sample.resource_filename Sample.production MoreSample.redirect
           "/login/" Sample.api_client
           (SupersetSecurityException
              {| message := "denied";
                 error_type := OTHER_ERROR_TYPE "TABLE_SECURITY_ACCESS_ERROR";
                 level := WARNING; extra := None |} 403 None));
    reflexivity.
Defined.

Lemma errorhandler_answers_witness :
  native_exception
    (CommandInvalidError "Invalid" 422 [("name", VList [VStr "required"])]) = true /\
  exists r,
    sample_errorhandler Sample.api_client
      (CommandInvalidError "Invalid" 422 [("name", VList [VStr "required"])])
    = Ok r.
Proof.
  split; [reflexivity|].
  apply (errorhandler_answers
           Sample.float_repr Sample.json_iso_dttm_ser true 0
           Sample.error_msg_from_exception Sample.send_file
           Sample.resource_filename Sample.production MoreSample.redirect
           "/login/" Sample.api_client
           (CommandInvalidError "Invalid" 422 [("name", VList [VStr "required"])])).
  reflexivity.
Defined.

Lemma bootstrap_conf_is_the_allow_list_witness :
  (forall d, dict_get "conf" (COMMON_BOOTSTRAP_OVERRIDES_FUNC Sample.ambient d) = None) /\
  exists data frontend_config,
    common_bootstrap_data Sample.ambient (Some 1) "en" = Ok data /\
    dict_get "conf" data = Some (VDict frontend_config) /\
    dict_get "SQL_MAX_ROW" frontend_config = Some (VInt 100000) /\
    dict_get "SLACK_API_TOKEN" frontend_config = None.
Proof.
  assert (Hover : forall d,
             dict_get "conf" (COMMON_BOOTSTRAP_OVERRIDES_FUNC Sample.ambient d) = None)
    by reflexivity.
  split; [exact Hover|].
  destruct (common_bootstrap_data Sample.ambient (Some 1) "en") as [data|e] eqn:E;
    [|discriminate E].
  destruct (bootstrap_conf_is_the_allow_list Sample.ambient (Some 1) "en" data E Hover)
    as [fc [Hconf [_ [Hval [Hslack _]]]]].
  exists data, fc. split; [reflexivity|]. split; [exact Hconf|].
  split; [|exact Hslack].
  rewrite (Hval "SQL_MAX_ROW"); [reflexivity|].
  simpl. tauto.
Defined.

Lemma cached_entry_expires_after_60_seconds_witness :
  store_get KeepingCache 0 (Some 1, "en") [] = None /\ 0 + 60 <= 60 /\
  exists v,
    common_bootstrap_data Sample.ambient (Some 1) "en" = Ok v /\
    fst (cached_common_bootstrap_data KeepingCache Sample.ambient 0 []
           (Some 1) "en") = Ok v /\
    fst (cached_common_bootstrap_data KeepingCache MoreSample.stale_ambient 60
           (snd (cached_common_bootstrap_data KeepingCache Sample.ambient 0 []
                   (Some 1) "en"))
           (Some 1) "en")
    = Raise (KeyError "EXTRA_SEQUENTIAL_COLOR_SCHEMES").
Proof.
  split; [reflexivity|]. split; [lia|].
  destruct (common_bootstrap_data Sample.ambient (Some 1) "en") as [v|e] eqn:E;
    [|discriminate E].
  exists v. split; [reflexivity|].
  destruct (cached_entry_expires_after_60_seconds KeepingCache
              Sample.ambient MoreSample.stale_ambient [] 0 60 (Some 1) "en" v
              eq_refl E ltac:(lia)) as [H1 H2].
  split; [exact H1|]. rewrite H2. reflexivity.
Defined.

Lemma failed_bootstrap_keeps_the_flashes_witness :
  store_get KeepingCache 0 (Some 1, "en") [] = None /\
  common_bootstrap_data MoreSample.stale_ambient (Some 1) "en"
  = Raise (KeyError "EXTRA_SEQUENTIAL_COLOR_SCHEMES") /\
  ctx_flashes Sample.request_with_flash = None /\
  session_flashes Sample.request_with_flash = Some [("info", "Dashboard saved")] /\
  common_bootstrap_payload KeepingCache MoreSample.stale_ambient 0 []
    Sample.request_with_flash
  = (Raise (KeyError "EXTRA_SEQUENTIAL_COLOR_SCHEMES"), [],
     Sample.request_with_flash) /\
  exists p c' rc',
    common_bootstrap_payload KeepingCache Sample.ambient 5 []
      Sample.request_with_flash
    = (Ok p, c', rc') /\
    dict_get "flash_messages" p
    = Some (flashes_value [("info", "Dashboard saved")]).
Proof.
  split; [reflexivity|]. split; [reflexivity|]. split; [reflexivity|].
  split; [reflexivity|].
  destruct (common_bootstrap_data Sample.ambient (Some 1) "en") as [v|e] eqn:E;
    [|discriminate E].
  apply (failed_bootstrap_keeps_the_flashes KeepingCache
           MoreSample.stale_ambient Sample.ambient 0 5 []
           Sample.request_with_flash [("info", "Dashboard saved")]
           (KeyError "EXTRA_SEQUENTIAL_COLOR_SCHEMES") v);
    try reflexivity.
  exact E.
Defined.

Lemma environment_tag_by_cases_witness :
  MoreSample.environ "SUPERSET_ENV" = Some "production" /\
  "production" <> "" /\
  MoreSample.environ "FLASK_ENV" = None /\
  get_environment_tag false MoreSample.tags "SUPERSET_ENV" MoreSample.environ
  = [("color", VStr ""); ("text", VStr "")] /\
  get_environment_tag true MoreSample.tags "FLASK_ENV" MoreSample.environ
  = [("color", VStr "error.base"); ("text", VStr "flask-debug")].
Proof.
  split; [reflexivity|]. split; [discriminate|]. split; [reflexivity|]. split.
  - apply (proj1 (environment_tag_by_cases false MoreSample.tags "SUPERSET_ENV"
                    MoreSample.environ) "production");
      [reflexivity | discriminate | reflexivity].
  - apply (proj1 (proj2 (environment_tag_by_cases true MoreSample.tags "FLASK_ENV"
                           MoreSample.environ))).
    reflexivity.
Defined.


Lemma apply_http_headers_keeps_the_response_witness :
  headers_contains "x-frame-options" [("X-Frame-Options", "ALLOWALL")] = true /\
  headers_get "x-frame-options"
    (headers (apply_http_headers Sample.production
                {| data := ""; status_code := 200;
                   headers := [("X-Frame-Options", "ALLOWALL")] |}))
  = Some "ALLOWALL".
Proof.
  split; [reflexivity|].
  destruct (apply_http_headers_keeps_the_response Sample.production
              {| data := ""; status_code := 200;
                 headers := [("X-Frame-Options", "ALLOWALL")] |})
    as [_ [_ [_ H]]].
  rewrite (H "x-frame-options"); reflexivity.
Defined.

Local Abbreviation sample_get := (datamodel_get MoreSample.base_filters).
Local Abbreviation sample_delete :=
  (_delete MoreSample.pre_delete MoreSample.post_delete MoreSample.base_filters
     MoreSample.deletable MoreSample.datamodel_message
     Sample.error_msg_from_exception).
Local Abbreviation sample_muldelete :=
  (muldelete MoreSample.pre_delete MoreSample.post_delete MoreSample.base_filters
     MoreSample.deletable MoreSample.datamodel_message
     Sample.error_msg_from_exception (MoreSample.redirect "/list/")).

Lemma delete_removes_the_permissions_of_the_record_witness :
  sample_get 1 MoreSample.tables = Some MoreSample.chart /\
  MoreSample.pre_delete MoreSample.chart = None /\
  MoreSample.deletable MoreSample.chart = true /\
  MoreSample.post_delete MoreSample.chart = None /\
  exists w',
    sample_delete 1 MoreSample.tables = (Ok tt, w') /\
    ~ In "[main].[births]" (view_menus w') /\
    flashed w' = [("success", "Deleted Row")].
Proof.
  split; [reflexivity|]. split; [reflexivity|]. split; [reflexivity|].
  split; [reflexivity|].
  destruct (delete_removes_the_permissions_of_the_record
              MoreSample.pre_delete MoreSample.post_delete MoreSample.base_filters
              MoreSample.deletable MoreSample.datamodel_message
              Sample.error_msg_from_exception 1 MoreSample.tables MoreSample.chart
              eq_refl eq_refl eq_refl eq_refl)
    as [w' [Hd [_ [Hvm [_ [_ Hfl]]]]]].
  exists w'. split; [exact Hd|]. split; [exact Hvm | exact Hfl].
Defined.

Lemma muldelete_skips_the_records_that_fail_witness :
  [MoreSample.chart; MoreSample.dataset; MoreSample.report] <> [] /\
  NoDup (map item_id [MoreSample.chart; MoreSample.dataset; MoreSample.report]) /\
  MoreSample.pre_delete MoreSample.dataset = Some (OtherException "Dataset is in use") /\
  exists w' more,
    sample_muldelete [MoreSample.chart; MoreSample.dataset; MoreSample.report]
      MoreSample.tables
    = (Ok (Plain (MoreSample.redirect "/list/")), w') /\
    flashed w' = (flashed MoreSample.tables ++ more)%list /\
    In MoreSample.dataset (rows w') /\
    In ("danger", "Dataset is in use") more.
Proof.
  assert (Hne : [MoreSample.chart; MoreSample.dataset; MoreSample.report] <> [])
    by discriminate.
  assert (Hnd : NoDup (map item_id
                         [MoreSample.chart; MoreSample.dataset; MoreSample.report])).
  { simpl. repeat constructor; simpl; intuition discriminate. }
  split; [exact Hne|]. split; [exact Hnd|]. split; [reflexivity|].
  destruct (proj2 (muldelete_skips_the_records_that_fail
                     MoreSample.pre_delete MoreSample.post_delete
                     MoreSample.base_filters MoreSample.deletable
                     MoreSample.datamodel_message Sample.error_msg_from_exception
                     (MoreSample.redirect "/list/")
                     [MoreSample.chart; MoreSample.dataset; MoreSample.report]
                     MoreSample.tables) Hne Hnd)
    as [w' [more [Hm [Hfl [Hfail _]]]]].
  - intros i [<- | [<- | [<- | []]]]; reflexivity.
  - intros i _. reflexivity.
  - exists w', more. split; [exact Hm|]. split; [exact Hfl|].
    apply (Hfail MoreSample.dataset (OtherException "Dataset is in use"));
      [simpl; tauto | reflexivity].
Defined.

Lemma muldelete_aborts_on_a_record_named_twice_witness :
  sample_get 1 MoreSample.tables = Some MoreSample.chart /\
  MoreSample.pre_delete MoreSample.chart = None /\
  MoreSample.deletable MoreSample.chart = true /\
  MoreSample.post_delete MoreSample.chart = None /\
  exists w',
    sample_muldelete [MoreSample.chart; MoreSample.chart; MoreSample.report]
      MoreSample.tables
    = (Raise abort_404, w') /\
    ~ In MoreSample.chart (rows w').
Proof.
  split; [reflexivity|]. split; [reflexivity|]. split; [reflexivity|].
  split; [reflexivity|].
  destruct (muldelete_aborts_on_a_record_named_twice
              MoreSample.pre_delete MoreSample.post_delete MoreSample.base_filters
              MoreSample.deletable MoreSample.datamodel_message
              Sample.error_msg_from_exception (MoreSample.redirect "/list/")
              MoreSample.chart [MoreSample.report] MoreSample.tables
              eq_refl eq_refl eq_refl eq_refl)
    as [w' [Hm [_ Hgone]]].
  exists w'. split; [exact Hm | exact Hgone].
Defined.

Lemma delete_removes_only_after_the_hooks_witness :
  rows (snd (sample_delete 1 MoreSample.tables)) <> rows MoreSample.tables /\
  exists item,
    sample_get 1 MoreSample.tables = Some item /\
    MoreSample.pre_delete item = None /\
    MoreSample.deletable item = true.
Proof.
  assert (H : rows (snd (sample_delete 1 MoreSample.tables))
              <> rows MoreSample.tables) by discriminate.
  split; [exact H|].
  exact (proj1 (delete_removes_only_after_the_hooks
                  MoreSample.pre_delete MoreSample.post_delete
                  MoreSample.base_filters MoreSample.deletable
                  MoreSample.datamodel_message Sample.error_msg_from_exception
                  1 MoreSample.tables) H).
Defined.
